(** * harp.gl: theme recognizers, style-set data filter, style-set evaluation

    Shallow embedding of
    - the run-time recognizers of Theme.ts ([isBoxedDefinition],
      [isLiteralDefinition], [isJsonExprReference],
      [isActualSelectorDefinition]),
    - the class [StyleSetDataFilter] of the OMV data source,
    and a model, written from the specification, of the definition resolver
    and of the matching algorithm of the style-set evaluator, whose sources
    are absent. *)

From Stdlib Require Import Bool List String Ascii ZArith QArith Lia Arith.
Import ListNotations.

Set Warnings "-register-all,-notation-for-abbreviation".

Local Open Scope string_scope.
Local Open Scope list_scope.

(* ================================================================== *)
(** ** JavaScript values as they come out of a JSON theme *)
(* ================================================================== *)

Module Js.

(** A theme is parsed JSON; [JUndefined] is what a property access
    yields for an absent property.  Numbers are kept exact. *)
Inductive JsValue : Type :=
| JUndefined
| JNull
| JBool (b : bool)
| JNumber (q : Q)
| JString (s : string)
| JArray (items : list JsValue)
| JObject (fields : list (string * JsValue)).

(** The [typeof] operator. *)
Definition typeof (v : JsValue) : string :=
  match v with
  | JUndefined => "undefined"
  | JNull => "object"
  | JBool _ => "boolean"
  | JNumber _ => "number"
  | JString _ => "string"
  | JArray _ => "object"
  | JObject _ => "object"
  end.

(** [v !== null] *)
Definition notNull (v : JsValue) : bool :=
  match v with JNull => false | _ => true end.

(** [Array.isArray(v)] *)
Definition isArray (v : JsValue) : bool :=
  match v with JArray _ => true | _ => false end.

(** Property list lookup: the first binding of the key. *)
Fixpoint lookup (k : string) (fields : list (string * JsValue)) : option JsValue :=
  match fields with
  | [] => None
  | (k', v) :: rest => if String.eqb k k' then Some v else lookup k rest
  end.

(** [v.k] for a named (non-index, non-[length]) property [k].  Every access
    in the embedded code is guarded by [typeof v === "object" && v !== null]
    or by [Array.isArray(v)], so the [TypeError] of an access on [null] or
    [undefined] is never reached; arrays and primitives carry no named
    property of a theme. *)
Definition getProp (v : JsValue) (k : string) : JsValue :=
  match v with
  | JObject fields =>
      match lookup k fields with Some x => x | None => JUndefined end
  | _ => JUndefined
  end.

(** [v.length] of an array. *)
Definition arrayLength (v : JsValue) : nat :=
  match v with JArray items => List.length items | _ => 0 end.

(** [v[i]] of an array; out of range yields [undefined]. *)
Definition index (v : JsValue) (i : nat) : JsValue :=
  match v with
  | JArray items => nth i items JUndefined
  | _ => JUndefined
  end.

(** [v === s] for a string literal [s]. *)
Definition strictEqString (v : JsValue) (s : string) : bool :=
  match v with JString s' => String.eqb s' s | _ => false end.

(** Property update: replace the first binding of [k], or add one. *)
Fixpoint setProp (k : string) (x : JsValue) (fields : list (string * JsValue))
  : list (string * JsValue) :=
  match fields with
  | [] => [(k, x)]
  | (k', v) :: rest =>
      if String.eqb k k' then (k, x) :: rest else (k', v) :: setProp k x rest
  end.

(** Property removal: drop every binding of [k]. *)
Fixpoint deleteProp (k : string) (fields : list (string * JsValue))
  : list (string * JsValue) :=
  match fields with
  | [] => []
  | (k', v) :: rest =>
      if String.eqb k k' then deleteProp k rest else (k', v) :: deleteProp k rest
  end.

End Js.
Export Js.

(* ================================================================== *)
(** ** Theme.ts: the recognizers *)
(* ================================================================== *)

Module Theme.

Section Recognizers.

(** [isInterpolatedPropertyDefinition] and [isJsonExpr] are imported by
    Theme.ts from [./InterpolatedPropertyDefs] and [./Expr]. *)
Variable isInterpolatedPropertyDefinition : JsValue -> bool.
Variable isJsonExpr : JsValue -> bool.

(** The disjunction on [bdef.value] inside [isBoxedDefinition]. *)
Definition isBoxedValue (value : JsValue) : bool :=
  String.eqb (typeof value) "string"
  || String.eqb (typeof value) "number"
  || String.eqb (typeof value) "boolean"
  || isInterpolatedPropertyDefinition value
  || isJsonExpr value.

(** [export function isBoxedDefinition(def: Definition): def is BoxedDefinition] *)
Definition isBoxedDefinition (def : JsValue) : bool :=
  String.eqb (typeof def) "object"
  && notNull def
  && (String.eqb (typeof (getProp def "type")) "string"
      || String.eqb (typeof (getProp def "type")) "undefined")
  && isBoxedValue (getProp def "value").

End Recognizers.

(** [export function isLiteralDefinition(def: Definition): def is LiteralValue] *)
Definition isLiteralDefinition (def : JsValue) : bool :=
  String.eqb (typeof def) "string"
  || String.eqb (typeof def) "number"
  || String.eqb (typeof def) "boolean".

(** [export function isJsonExprReference(value: any): value is JsonExprReference] *)
Definition isJsonExprReference (value : JsValue) : bool :=
  isArray value
  && Nat.eqb (arrayLength value) 2
  && strictEqString (index value 0) "ref"
  && String.eqb (typeof (index value 1)) "string".

(** [export function isActualSelectorDefinition(def: Definition): def is Style & StyleSelector] *)
Definition isActualSelectorDefinition (def : JsValue) : bool :=
  String.eqb (typeof def) "object"
  && notNull def
  && negb (isArray def)
  && String.eqb (typeof (getProp def "technique")) "string".

(** The name a ["ref", name] expression points to. *)
Definition referenceName (value : JsValue) : option string :=
  if isJsonExprReference value then
    match index value 1 with JString n => Some n | _ => None end
  else None.

(** Whether a declaration carries the [when] property of [StyleSelector]. *)
Definition hasWhen (def : JsValue) : bool :=
  negb (String.eqb (typeof (getProp def "when")) "undefined").

(** The shape of a dynamic value: an interpolation descriptor is an object,
    an expression is an array. *)
Definition isDynamicShape (value : JsValue) : bool :=
  String.eqb (typeof value) "object" && notNull value.

(** Type/value consistency of a boxed definition, in the words of the theme
    data model: a declared [type] fits the run-time shape of [value]:
    ["color"] and ["string"] take a string or a dynamic value, ["number"] a
    number or a dynamic value, ["boolean"] a boolean or a dynamic value,
    ["selector"] a string or an expression. *)
Definition typeMatchesValue (def : JsValue) : bool :=
  let value := getProp def "value" in
  match getProp def "type" with
  | JString ty =>
      if String.eqb ty "color" then String.eqb (typeof value) "string" || isDynamicShape value
      else if String.eqb ty "string" then String.eqb (typeof value) "string" || isDynamicShape value
      else if String.eqb ty "number" then String.eqb (typeof value) "number" || isDynamicShape value
      else if String.eqb ty "boolean" then String.eqb (typeof value) "boolean" || isDynamicShape value
      else if String.eqb ty "selector" then String.eqb (typeof value) "string" || isArray value
      else true
  | _ => true
  end.

(** The shapes of [value] that [isBoxedDefinition] lets through. *)
Definition acceptedValue (isInterpolatedPropertyDefinition isJsonExpr : JsValue -> bool)
           (value : JsValue) : Prop :=
  (exists s, value = JString s) \/ (exists q, value = JNumber q)
  \/ (exists b, value = JBool b)
  \/ isInterpolatedPropertyDefinition value = true \/ isJsonExpr value = true.

End Theme.

(* ================================================================== *)
(** ** StyleSetDataFilter.ts *)
(* ================================================================== *)

(** The two queries of [StyleSetEvaluator] the filter calls. *)
Record StyleSetEvaluatorApi : Type := {
  evaluatorWantsLayer : string -> bool;
  evaluatorWantsFeature : string -> string -> bool
}.

Module StyleSetDataFilter.

(** [class StyleSetDataFilter implements OmvFeatureFilter] *)
Record t : Type := {
  hasKindFilter : bool;
  styleSetEvaluator : StyleSetEvaluatorApi
}.

(** [constructor(readonly styleSetEvaluator: StyleSetEvaluator) {}] with the
    field initializer [hasKindFilter: boolean = false]. *)
Definition new (evaluator : StyleSetEvaluatorApi) : t :=
  {| hasKindFilter := false; styleSetEvaluator := evaluator |}.

(** [wantsLayer(layer: string, level: number): boolean] *)
Definition wantsLayer (this : t) (layer : string) (level : Q) : bool :=
  evaluatorWantsLayer (styleSetEvaluator this) layer.

(** [wantsPointFeature(layer: string): boolean] *)
Definition wantsPointFeature (this : t) (layer : string) : bool :=
  evaluatorWantsFeature (styleSetEvaluator this) layer "point".

(** [wantsLineFeature(layer: string): boolean] *)
Definition wantsLineFeature (this : t) (layer : string) : bool :=
  evaluatorWantsFeature (styleSetEvaluator this) layer "line".

(** [wantsPolygonFeature(layer: string): boolean] *)
Definition wantsPolygonFeature (this : t) (layer : string) : bool :=
  evaluatorWantsFeature (styleSetEvaluator this) layer "polygon".

(** [wantsKind(): boolean].  The method declares no parameter; whatever a
    caller passes (the [OmvFeatureFilter] interface passes the kind) is
    dropped by the call. *)
Definition wantsKind (this : t) (args : list JsValue) : bool := true.

End StyleSetDataFilter.

(* ================================================================== *)
(** ** Results of fallible operations *)
(* ================================================================== *)

Inductive result (E A : Type) : Type :=
| Ok (a : A)
| Err (e : E).
Arguments Ok {E A} a.
Arguments Err {E A} e.

Definition bind {E A B : Type} (r : result E A) (k : A -> result E B) : result E B :=
  match r with
  | Ok a => k a
  | Err e => Err e
  end.

Notation "x <- r ;; k" := (bind r (fun x => k))
  (at level 61, r at next level, right associativity).

Definition isOk {E A : Type} (r : result E A) : bool :=
  match r with Ok _ => true | Err _ => false end.

(* ================================================================== *)
(** ** Expression evaluator *)
(* ================================================================== *)

Module Expr.

(** Modelled from the spec: the evaluation context of the Expression
    Evaluator (Expr.ts, which Theme.ts imports, is absent): the feature tag
    lookup and the current zoom level. *)
Record Context : Type := {
  featureTags : list (string * JsValue);
  zoomLevel : Q
}.

(** Modelled from the spec: the causes of an [EvalError]: an operator that
    receives the wrong arity or type, a ["ref"] that cannot be resolved; an
    operator outside the fixed set and a condition in textual syntax (whose
    parser is not modelled) are reported the same way. *)
Inductive EvalError : Type :=
| WrongArity (op : string)
| WrongType (op : string)
| UnknownOperator (op : string)
| UnresolvedRef (args : list JsValue)
| NotAnExpression (e : JsValue).

(** Modelled from the spec: the contract of the absent evaluator,
    [evaluate(expr, context) -> value | fails with EvalError]. *)
Definition Evaluator : Type := JsValue -> Context -> result EvalError JsValue.

(** Modelled from the spec: the comparison operator [==] on literals. *)
Definition literalEqb (a b : JsValue) : bool :=
  match a, b with
  | JNull, JNull => true
  | JBool x, JBool y => Bool.eqb x y
  | JNumber x, JNumber y => Qeq_bool x y
  | JString x, JString y => String.eqb x y
  | _, _ => false
  end.

(** Modelled from the spec: a boolean connective given a non-boolean fails
    with a type error. *)
Definition asBool (op : string) (v : JsValue) : result EvalError bool :=
  match v with JBool b => Ok b | _ => Err (WrongType op) end.

(** Modelled from the spec: the arguments of a variadic connective. *)
Fixpoint allBool (op : string) (vs : list JsValue) : result EvalError (list bool) :=
  match vs with
  | [] => Ok []
  | v :: rest => b <- asBool op v ;; bs <- allBool op rest ;; Ok (b :: bs)
  end.

(** Modelled from the spec: the fixed set of built-in operators, applied to
    already evaluated arguments: feature-tag lookup, zoom-level query,
    boolean connectives, comparisons and arithmetic.  Interpolation
    sampling is floating-point arithmetic and is not part of the model; a
    ["ref"] that survived compilation cannot be resolved. *)
Definition applyOperator (op : string) (args : list JsValue) (ctx : Context)
  : result EvalError JsValue :=
  if String.eqb op "get" then
    match args with
    | [JString key] =>
        Ok (match lookup key (featureTags ctx) with Some v => v | None => JNull end)
    | [_] => Err (WrongType op)
    | _ => Err (WrongArity op)
    end
  else if String.eqb op "zoom" then
    match args with
    | [] => Ok (JNumber (zoomLevel ctx))
    | _ => Err (WrongArity op)
    end
  else if String.eqb op "!" then
    match args with
    | [v] => b <- asBool op v ;; Ok (JBool (negb b))
    | _ => Err (WrongArity op)
    end
  else if String.eqb op "all" then
    bs <- allBool op args ;; Ok (JBool (forallb (fun b => b) bs))
  else if String.eqb op "any" then
    bs <- allBool op args ;; Ok (JBool (existsb (fun b => b) bs))
  else if String.eqb op "==" then
    match args with
    | [a; b] => Ok (JBool (literalEqb a b))
    | _ => Err (WrongArity op)
    end
  else if String.eqb op "<=" then
    match args with
    | [JNumber a; JNumber b] => Ok (JBool (Qle_bool a b))
    | [_; _] => Err (WrongType op)
    | _ => Err (WrongArity op)
    end
  else if String.eqb op "<" then
    match args with
    | [JNumber a; JNumber b] => Ok (JBool (negb (Qle_bool b a)))
    | [_; _] => Err (WrongType op)
    | _ => Err (WrongArity op)
    end
  else if String.eqb op "+" then
    match args with
    | [JNumber a; JNumber b] => Ok (JNumber (a + b))
    | [_; _] => Err (WrongType op)
    | _ => Err (WrongArity op)
    end
  else if String.eqb op "ref" then Err (UnresolvedRef args)
  else Err (UnknownOperator op).

(** Modelled from the spec: evaluation of a JSON expression
    [[op, arg, ...]]: arguments first, then the operator; a literal
    evaluates to itself. *)
Fixpoint evalJson (e : JsValue) (ctx : Context) {struct e} : result EvalError JsValue :=
  match e with
  | JArray (JString op :: args) =>
      let fix evalArgs (l : list JsValue) : result EvalError (list JsValue) :=
        match l with
        | [] => Ok []
        | a :: rest =>
            v <- evalJson a ctx ;; vs <- evalArgs rest ;; Ok (v :: vs)
        end in
      vs <- evalArgs args ;; applyOperator op vs ctx
  | JArray _ => Err (NotAnExpression e)
  | JObject _ => Err (NotAnExpression e)
  | JUndefined => Err (NotAnExpression e)
  | _ => Ok e
  end.

(** Modelled from the spec: an instance of the evaluator contract.  A [when]
    condition given as text needs the condition parser, which is outside the
    model: it is reported as an evaluation failure. *)
Definition evaluate : Evaluator :=
  fun e ctx =>
    match e with
    | JString _ => Err (NotAnExpression e)
    | _ => evalJson e ctx
    end.

End Expr.

(* ================================================================== *)
(** ** Definition resolver *)
(* ================================================================== *)

Module DefinitionResolver.

Import Theme.

(** The [definitions] object of a theme ([Definitions] of Theme.ts), as its
    property list. *)
Definition Definitions : Type := list (string * JsValue).

(** Modelled from the spec: the two failures of the absent resolver, and
    the exhaustion of the step bound of [resolveFrom]. *)
Inductive ResolveError : Type :=
| UnresolvedReferenceError (name : string)
| CyclicReferenceError (name : string)
| ResolutionExhausted.

(** Modelled from the spec: the Definition Resolver, whose source is
    absent.  One level of indirection per step; while
    the definition found is itself a reference, resolution continues; a
    name met twice on the way is a cycle.  [visited] holds the names
    already followed, [fuel] bounds the number of steps. *)
Fixpoint resolveFrom (definitions : Definitions) (fuel : nat)
         (visited : list string) (name : string) : result ResolveError JsValue :=
  match fuel with
  | O => Err ResolutionExhausted
  | S fuel' =>
      if existsb (String.eqb name) visited then Err (CyclicReferenceError name)
      else
        match lookup name definitions with
        | None => Err (UnresolvedReferenceError name)
        | Some def =>
            match referenceName def with
            | Some next => resolveFrom definitions fuel' (name :: visited) next
            | None => Ok def
            end
        end
  end.

(** Modelled from the spec: [resolve(name) -> Definition | fails], run with
    one step more than there are definitions. *)
Definition resolve (definitions : Definitions) (name : string)
  : result ResolveError JsValue :=
  resolveFrom definitions (S (List.length definitions)) [] name.

(** The reference step: [name] is defined as [["ref", next]]. *)
Definition nextReference (definitions : Definitions) (name : string) : option string :=
  match lookup name definitions with
  | Some def => referenceName def
  | None => None
  end.

(** A set of names closed under the reference step: from any of them,
    following references never leaves the set, so never ends. *)
Definition referenceCycle (definitions : Definitions) (names : list string) : Prop :=
  forall n, In n names ->
    exists n', nextReference definitions n = Some n' /\ In n' names.

(** A chain [n0 -> n1 -> ... -> nk] of references. *)
Fixpoint referenceChain (definitions : Definitions) (first : string)
         (rest : list string) : Prop :=
  match rest with
  | [] => True
  | n :: rest' =>
      nextReference definitions first = Some n /\ referenceChain definitions n rest'
  end.

End DefinitionResolver.

(* ================================================================== *)
(** ** Style-set evaluator *)
(* ================================================================== *)

Module StyleSetEvaluator.

Import Theme Expr DefinitionResolver.

(** The technique names of the [Style] union of Theme.ts. *)
Definition techniqueNames : list string :=
  [ "squares"; "circles"; "labeled-icon"; "line-marker"; "line"; "segments";
    "solid-line"; "dashed-line"; "label-rejection-line"; "fill"; "standard";
    "terrain"; "extruded-line"; "extruded-polygon"; "shader"; "text"; "none" ].

(** The properties of [StyleSelector] and [BaseStyle] in Theme.ts: what a
    style declaration carries besides its technique parameters. *)
Definition reservedKeys : list string :=
  [ "when"; "layer"; "final";
    "description"; "styleSet"; "category"; "technique"; "renderOrder";
    "minZoomLevel"; "maxZoomLevel"; "transient"; "debug"; "metricUnit";
    "labelProperty"; "attr" ].

(** Modelled from the spec: where a compilation error arose: in a style
    declaration (by declaration index) or in a definition (by name). *)
Inductive Place : Type :=
| InStyle (index : nat)
| InDefinition (name : string).

(** Modelled from the spec: the causes of a [StyleCompilationError]:
    malformed style declaration, unknown technique name, missing mandatory
    [when], cyclic or unresolvable definition reference, definitions left
    unresolved after the one substitution pass. *)
Inductive StyleCompilationError : Type :=
| MalformedStyleDeclaration (at_ : Place)
| UnknownTechnique (at_ : Place) (technique : string)
| MissingWhen (at_ : Place)
| UnresolvedReference (at_ : Place) (name : string)
| CyclicReference (at_ : Place) (name : string)
| UnresolvedDefinitions (at_ : Place).

(** Modelled from the spec: a reference error met while compiling is a
    compilation error. *)
Definition ofResolveError (at_ : Place) (e : ResolveError) : StyleCompilationError :=
  match e with
  | UnresolvedReferenceError n => UnresolvedReference at_ n
  | CyclicReferenceError n => CyclicReference at_ n
  | ResolutionExhausted => UnresolvedDefinitions at_
  end.

(** Modelled from the spec: the same, on results. *)
Definition liftResolve {A : Type} (at_ : Place) (r : result ResolveError A)
  : result StyleCompilationError A :=
  match r with
  | Ok a => Ok a
  | Err e => Err (ofResolveError at_ e)
  end.

(** Modelled from the spec: the compiled evaluator state: the resolved
    style declarations of one style set, in declaration order. *)
Record CompiledEvaluator : Type := {
  styles : list JsValue
}.

(** Modelled from the spec: the output unit: technique name, resolved
    numeric render order, concrete attribute values.  The priority looked up
    in the theme's [priorities] table is not part of the model. *)
Record Technique : Type := {
  techniqueName : string;
  renderOrder : Q;
  attributes : list (string * JsValue)
}.

(** Modelled from the spec: the non-fatal diagnostic of a rule whose
    evaluation failed. *)
Record Diagnostic : Type := {
  ruleIndex : nat;
  cause : EvalError
}.

Section Compile.

Variable isInterpolatedPropertyDefinition : JsValue -> bool.
Variable isJsonExpr : JsValue -> bool.

(** Modelled from the spec: a reference to a boxed definition stands for
    the boxed [value]. *)
Definition unbox (def : JsValue) : JsValue :=
  if isBoxedDefinition isInterpolatedPropertyDefinition isJsonExpr def
  then getProp def "value" else def.

Variable definitions : Definitions.

(** Modelled from the spec: the one substitution pass that turns a style
    declaration into a resolved style: every ["ref", name] is replaced by
    what the Definition Resolver returns for [name]. *)
Fixpoint substituteReferences (v : JsValue) {struct v} : result ResolveError JsValue :=
  match v with
  | JArray items =>
      match referenceName v with
      | Some name => def <- resolve definitions name ;; Ok (unbox def)
      | None =>
          let fix onItems (l : list JsValue) : result ResolveError (list JsValue) :=
            match l with
            | [] => Ok []
            | x :: rest =>
                x' <- substituteReferences x ;; rest' <- onItems rest ;; Ok (x' :: rest')
            end in
          items' <- onItems items ;; Ok (JArray items')
      end
  | JObject fields =>
      let fix onFields (l : list (string * JsValue))
        : result ResolveError (list (string * JsValue)) :=
        match l with
        | [] => Ok []
        | (k, x) :: rest =>
            x' <- substituteReferences x ;; rest' <- onFields rest ;; Ok ((k, x') :: rest')
        end in
      fields' <- onFields fields ;; Ok (JObject fields')
  | _ => Ok v
  end.

(** Modelled from the spec: whether a ["ref", name] is left somewhere in
    [v] after the substitution pass. *)
Fixpoint containsReference (v : JsValue) {struct v} : bool :=
  match v with
  | JArray items =>
      isJsonExprReference v
      || (fix anyItem (l : list JsValue) : bool :=
            match l with
            | [] => false
            | x :: rest => containsReference x || anyItem rest
            end) items
  | JObject fields =>
      (fix anyField (l : list (string * JsValue)) : bool :=
         match l with
         | [] => false
         | (_, x) :: rest => containsReference x || anyField rest
         end) fields
  | _ => false
  end.

(** Modelled from the spec: every definition must resolve; the first one
    that does not aborts compilation. *)
Fixpoint checkNames (names : list string) : result StyleCompilationError unit :=
  match names with
  | [] => Ok tt
  | n :: rest =>
      _ <- liftResolve (InDefinition n) (resolve definitions n) ;; checkNames rest
  end.

(** Modelled from the spec: a reference cycle among the definitions makes
    [compile] fail with the cyclic-reference error, whatever else is wrong
    with the theme: the first definition whose resolution meets a cycle. *)
Fixpoint findCycle (names : list string) : option (string * string) :=
  match names with
  | [] => None
  | n :: rest =>
      match resolve definitions n with
      | Err (CyclicReferenceError c) => Some (n, c)
      | _ => findCycle rest
      end
  end.

(** Modelled from the spec: the check of all definitions of the theme:
    cycles first, then names that do not resolve. *)
Definition checkDefinitions : result StyleCompilationError unit :=
  match findCycle (map fst definitions) with
  | Some (n, c) => Err (CyclicReference (InDefinition n) c)
  | None => checkNames (map fst definitions)
  end.

(** Modelled from the spec: compilation of one style declaration at its
    declaration index: a reference is replaced by the style definition it
    names; the declaration must be a concrete style (the recognizer of
    Theme.ts) with a known technique name and the mandatory [when]; its
    references are substituted in one pass. *)
Definition compileStyle (index : nat) (declaration : JsValue)
  : result StyleCompilationError JsValue :=
  style <- match referenceName declaration with
           | Some name => liftResolve (InStyle index) (resolve definitions name)
           | None => Ok declaration
           end ;;
  if isActualSelectorDefinition style then
    match getProp style "technique" with
    | JString technique =>
        if existsb (String.eqb technique) techniqueNames then
          if hasWhen style then
            resolved <- liftResolve (InStyle index) (substituteReferences style) ;;
            if containsReference resolved
            then Err (UnresolvedDefinitions (InStyle index))
            else Ok resolved
          else Err (MissingWhen (InStyle index))
        else Err (UnknownTechnique (InStyle index) technique)
    | _ => Err (MalformedStyleDeclaration (InStyle index))
    end
  else Err (MalformedStyleDeclaration (InStyle index)).

(** Modelled from the spec: the declarations of a style set are compiled in
    declaration order; the first failure aborts. *)
Fixpoint compileStyles (index : nat) (styleSet : list JsValue)
  : result StyleCompilationError (list JsValue) :=
  match styleSet with
  | [] => Ok []
  | declaration :: rest =>
      style <- compileStyle index declaration ;;
      rest' <- compileStyles (S index) rest ;;
      Ok (style :: rest')
  end.

(** Modelled from the spec:
    [compile(styleSet, theme) -> CompiledEvaluator | fails with StyleCompilationError]. *)
Definition compile (styleSet : list JsValue)
  : result StyleCompilationError CompiledEvaluator :=
  _ <- checkDefinitions ;;
  compiled <- compileStyles 0 styleSet ;;
  Ok {| styles := compiled |}.

End Compile.

Section Matching.

(** The Expression Evaluator in use. *)
Variable evaluate : Evaluator.

(** Modelled from the spec: an attribute is a literal or an expression;
    a JSON expression (an array) or an interpolation descriptor (an
    object) is evaluated against the feature and zoom level, a literal
    stands for itself. *)
Definition evalAttr (ctx : Context) (v : JsValue) : result EvalError JsValue :=
  match v with
  | JArray _ => evaluate v ctx
  | JObject _ => evaluate v ctx
  | _ => Ok v
  end.

(** Modelled from the spec: [when] is a string or an expression; a
    condition given as a string is an expression in textual syntax. *)
Definition evalWhen (ctx : Context) (v : JsValue) : result EvalError JsValue :=
  match v with
  | JString _ => evaluate v ctx
  | _ => evalAttr ctx v
  end.

(** Modelled from the spec: a rule is skipped on a falsy [when]:
    JavaScript truthiness of the value. *)
Definition truthy (v : JsValue) : bool :=
  match v with
  | JUndefined => false
  | JNull => false
  | JBool b => b
  | JNumber q => negb (Qeq_bool q 0)
  | JString s => negb (String.eqb s "")
  | JArray _ => true
  | JObject _ => true
  end.

(** Modelled from the spec: a zoom bound: absent means unbounded;
    otherwise it is evaluated, and must be a number. *)
Definition evalBound (ctx : Context) (key : string) (style : JsValue)
  : result EvalError (option Q) :=
  match getProp style key with
  | JUndefined => Ok None
  | bound =>
      v <- evalAttr ctx bound ;;
      match v with
      | JNumber q => Ok (Some q)
      | _ => Err (WrongType key)
      end
  end.

(** Modelled from the spec: the two sides of the inclusive range. *)
Definition aboveMin (lo : option Q) (zoom : Q) : bool :=
  match lo with Some m => Qle_bool m zoom | None => true end.

Definition belowMax (hi : option Q) (zoom : Q) : bool :=
  match hi with Some m => Qle_bool zoom m | None => true end.

(** Modelled from the spec: step 1 of the matching algorithm: whether
    [zoomLevel] lies inside [[minZoomLevel, maxZoomLevel]]. *)
Definition zoomInRange (ctx : Context) (style : JsValue) : result EvalError bool :=
  lo <- evalBound ctx "minZoomLevel" style ;;
  hi <- evalBound ctx "maxZoomLevel" style ;;
  Ok (aboveMin lo (zoomLevel ctx) && belowMax hi (zoomLevel ctx)).

(** The value of a zoom bound of a rule, in the words of the matching
    algorithm: absent, the side is unbounded; a number stands for itself; an
    expression (an array, or an interpolation object) is evaluated against
    the feature tags and zoom level first. *)
Inductive zoomBound (ctx : Context) (style : JsValue) (key : string) : option Q -> Prop :=
| BoundAbsent :
    getProp style key = JUndefined -> zoomBound ctx style key None
| BoundNumber (q : Q) :
    getProp style key = JNumber q -> zoomBound ctx style key (Some q)
| BoundExpression (q : Q) :
    String.eqb (typeof (getProp style key)) "object" = true ->
    getProp style key <> JNull ->
    evaluate (getProp style key) ctx = Ok (JNumber q) ->
    zoomBound ctx style key (Some q).

(** The same rule with [minZoomLevel] and [maxZoomLevel] removed. *)
Definition withoutZoomBounds (style : JsValue) : JsValue :=
  match style with
  | JObject fields =>
      JObject (deleteProp "minZoomLevel" (deleteProp "maxZoomLevel" fields))
  | _ => style
  end.

(** Modelled from the spec: the technique parameters declared directly on
    the style. *)
Definition baseAttributes (style : JsValue) : list (string * JsValue) :=
  match style with
  | JObject fields =>
      filter (fun kv => negb (existsb (String.eqb (fst kv)) reservedKeys)) fields
  | _ => []
  end.

(** Modelled from the spec: the overrides under [attr]. *)
Definition attrOverrides (style : JsValue) : list (string * JsValue) :=
  match getProp style "attr" with
  | JObject fields => fields
  | _ => []
  end.

(** Modelled from the spec: [attr] overrides take precedence over base
    attributes of the same name. *)
Definition mergedAttributes (style : JsValue) : list (string * JsValue) :=
  fold_left (fun acc kv => setProp (fst kv) (snd kv) acc)
            (attrOverrides style) (baseAttributes style).

(** Modelled from the spec: every technique attribute is resolved. *)
Fixpoint evalAttributes (ctx : Context) (attrs : list (string * JsValue))
  : result EvalError (list (string * JsValue)) :=
  match attrs with
  | [] => Ok []
  | (k, v) :: rest =>
      v' <- evalAttr ctx v ;;
      rest' <- evalAttributes ctx rest ;;
      Ok ((k, v') :: rest')
  end.

(** Modelled from the spec: [renderOrder] is the explicit value if given
    (possibly an expression), else the declaration index of the rule. *)
Definition computeRenderOrder (ctx : Context) (index : nat) (style : JsValue)
  : result EvalError Q :=
  match getProp style "renderOrder" with
  | JUndefined => Ok (inject_Z (Z.of_nat index))
  | explicit =>
      v <- evalAttr ctx explicit ;;
      match v with
      | JNumber q => Ok q
      | _ => Err (WrongType "renderOrder")
      end
  end.

(** Modelled from the spec: step 3 of the matching algorithm: the
    concrete technique of a matched rule. *)
Definition buildTechnique (ctx : Context) (index : nat) (style : JsValue)
  : result EvalError Technique :=
  match getProp style "technique" with
  | JString name =>
      order <- computeRenderOrder ctx index style ;;
      attrs <- evalAttributes ctx (mergedAttributes style) ;;
      Ok {| techniqueName := name; renderOrder := order; attributes := attrs |}
  | _ => Err (WrongType "technique")
  end.

(** Modelled from the spec: what testing one rule yields. *)
Inductive RuleOutcome : Type :=
| Skipped
| Failed (e : EvalError)
| Matched (t : Technique).

(** Modelled from the spec: steps 1 to 3 for one candidate rule: skip
    outside the zoom range, skip on a falsy [when]; an evaluation failure
    makes the rule not match and is reported. *)
Definition matchStyle (ctx : Context) (index : nat) (style : JsValue) : RuleOutcome :=
  match zoomInRange ctx style with
  | Err e => Failed e
  | Ok false => Skipped
  | Ok true =>
      match evalWhen ctx (getProp style "when") with
      | Err e => Failed e
      | Ok v =>
          if truthy v then
            match buildTechnique ctx index style with
            | Ok t => Matched t
            | Err e => Failed e
            end
          else Skipped
      end
  end.

(** Modelled from the spec: a rule is tested for a layer when its
    [layer] is unset or equals the layer name. *)
Definition layerUnset (style : JsValue) : bool :=
  String.eqb (typeof (getProp style "layer")) "undefined".

Definition namesLayer (layerName : string) (style : JsValue) : bool :=
  strictEqString (getProp style "layer") layerName.

Definition isCandidate (layerName : string) (style : JsValue) : bool :=
  layerUnset style || namesLayer layerName style.

(** Modelled from the spec: the rule has [final: true]. *)
Definition isFinal (style : JsValue) : bool :=
  match getProp style "final" with JBool true => true | _ => false end.

(** Modelled from the spec: the matching loop over the rules in
    declaration order, from declaration index [index] on; step 4: a
    matched rule with [final: true] ends it. *)
Fixpoint matchFrom (ctx : Context) (layerName : string) (index : nat)
         (rules : list JsValue) : list Technique * list Diagnostic :=
  match rules with
  | [] => ([], [])
  | style :: rest =>
      if isCandidate layerName style then
        match matchStyle ctx index style with
        | Matched t =>
            if isFinal style then ([t], [])
            else
              let (ts, ds) := matchFrom ctx layerName (S index) rest in
              (t :: ts, ds)
        | Skipped => matchFrom ctx layerName (S index) rest
        | Failed e =>
            let (ts, ds) := matchFrom ctx layerName (S index) rest in
            (ts, {| ruleIndex := index; cause := e |} :: ds)
        end
      else matchFrom ctx layerName (S index) rest
  end.

(** Modelled from the spec:
    [getMatchingTechniques(layerName, featureTags, zoomLevel)], with the
    diagnostics of the rules that failed. *)
Definition getMatchingTechniquesLogged (this : CompiledEvaluator)
           (layerName : string) (featureTags : list (string * JsValue))
           (zoomLevel : Q) : list Technique * list Diagnostic :=
  matchFrom {| Expr.featureTags := featureTags; Expr.zoomLevel := zoomLevel |}
            layerName 0 (styles this).

(** Modelled from the spec: the ordered list of techniques alone. *)
Definition getMatchingTechniques (this : CompiledEvaluator)
           (layerName : string) (featureTags : list (string * JsValue))
           (zoomLevel : Q) : list Technique :=
  fst (getMatchingTechniquesLogged this layerName featureTags zoomLevel).

End Matching.

End StyleSetEvaluator.

(* ================================================================== *)
(** ** CameraKeyTrackAnimation.ts *)
(* ================================================================== *)

Module CameraKeyTrackAnimation.

(** [THREE.Vector3] and [THREE.Quaternion], as carriers of their
    components.  Numbers are only stored and moved by the embedded code. *)
Record Vector3 : Type := { x : Q; y : Q; z : Q }.

Record Quaternion : Type := { qx : Q; qy : Q; qz : Q; qw : Q }.

(** [a ?? b] *)
Definition nullish {A : Type} (a : option A) (b : A) : A :=
  match a with Some v => v | None => b end.

(** [a || b] on an optional string: an absent and an empty string are falsy. *)
Definition orElse (a : option string) (b : string) : string :=
  match a with
  | Some v => if String.eqb v "" then b else v
  | None => b
  end.

Section Animation.

(** Types and operations of other packages: [GeoCoordinates] and the
    projection of the map view, the enumerations and quaternion algebra of
    three.js, the [onFinished] closures of the caller, the validation of an
    animation clip, and the printing of [Date.now()]. *)
Context {GeoCoordinates LoopStyle InterpolationMode Callback : Type}.
Variable LoopOnce : LoopStyle.
Variable InterpolateSmooth : InterpolationMode.
Variable projectPoint : GeoCoordinates -> Vector3.
Variable degToRad : Q -> Q.
Variable setFromAxisAngle : Vector3 -> Q -> Quaternion.
Variable multiply : Quaternion -> Quaternion -> Quaternion.
Variable numberToString : Z -> string.

(** [class ControlPoint] *)
Record ControlPoint : Type := {
  timestamp : Q;
  target : GeoCoordinates;
  pointName : option string;
  tilt : Q;
  heading : Q;
  distance : Q
}.

(** [interface CameraKeyTrackAnimationOptions] *)
Record Options : Type := {
  controlPoints : list ControlPoint;
  name : option string;
  interpolation : option InterpolationMode;
  loop : option LoopStyle;
  repetitions : option Q;
  rotateOnlyClockwise : option bool
}.

(** A keyframe track as handed to three.js: [(name, times, values, interpolation)]. *)
Record KeyframeTrack : Type := {
  trackName : string;
  times : list Q;
  values : list Q;
  trackInterpolation : InterpolationMode
}.

Variable validate : list KeyframeTrack -> bool.

(** [m_azimuthAxis = new THREE.Vector3(0, 0, 1)] *)
Definition m_azimuthAxis : Vector3 := {| x := 0; y := 0; z := 1 |}.

(** [m_altitudeAxis = new THREE.Vector3(1, 0, 0)] *)
Definition m_altitudeAxis : Vector3 := {| x := 1; y := 0; z := 0 |}.

(** The rotation of one control point: heading about the azimuth axis,
    multiplied by tilt about the altitude axis. *)
Definition pointRotation (point : ControlPoint) : Quaternion :=
  multiply (setFromAxisAngle m_azimuthAxis (degToRad (heading point)))
           (setFromAxisAngle m_altitudeAxis (degToRad (tilt point))).

(** The body of [this.m_options.controlPoints.map(point => { ... })] in the
    constructor: three pushes onto [posValues], four onto [rotValues]. *)
Definition pushControlPoint (acc : list Q * list Q) (point : ControlPoint)
  : list Q * list Q :=
  let worldPos := projectPoint (target point) in
  let posValues := ((fst acc ++ [x worldPos]) ++ [y worldPos]) ++ [z worldPos] in
  let rot := pointRotation point in
  let rotValues := (((snd acc ++ [qx rot]) ++ [qy rot]) ++ [qz rot]) ++ [qw rot] in
  (posValues, rotValues).

(** The three tracks the constructor builds: [.position], [.quaternion],
    [.distance], over the timestamps of the control points. *)
Definition keyTracks (mode : InterpolationMode) (points : list ControlPoint)
  : list KeyframeTrack :=
  let timestamps := map timestamp points in
  let filled := fold_left pushControlPoint points ([], []) in
  [ {| trackName := ".position"; times := timestamps; values := fst filled;
       trackInterpolation := mode |};
    {| trackName := ".quaternion"; times := timestamps; values := snd filled;
       trackInterpolation := mode |};
    {| trackName := ".distance"; times := timestamps; values := map distance points;
       trackInterpolation := mode |} ].

(** The calls the class makes on its collaborators (logger, animation clip,
    mixer and action of three.js, map view, the caller's closure), in the
    order it makes them.  A closure is recorded as invoked; what it does is
    the caller's. *)
Inductive Event : Type :=
| NewAnimationClip (clipName : string) (duration : Q) (tracks : list KeyframeTrack)
| LoggerError (animation : string)
| ClipResetDuration
| ClipTrim
| ActionSetLoop (mode : option LoopStyle) (count : option Q)
| ActionClampWhenFinished (flag : bool)
| MixerOnFinished
| ActionPlay
| MapViewAddRenderListener
| MapViewRemoveRenderListener
| MapViewBeginAnimation
| MapViewEndAnimation
| OnFinished (callback : Callback).

(** The fields of [class CameraKeyTrackAnimation] that the embedded methods
    read or write.  [m_options] is the object the caller passed in, written
    here only by the constructor and the setters. *)
Record t : Type := {
  m_options : Options;
  m_running : bool;
  m_onFinished : option Callback;
  m_name : string;
  m_lastFrameTime : Z
}.

(** What the constructor throws: [new THREE.VectorKeyframeTrack] refuses a
    track without keyframes.  By then the defaults are written into the
    options object, which the caller still holds; no clip, mixer or action
    exists. *)
Inductive ConstructorError : Type :=
| NoKeyframes (track : string) (written : Options).

(** [constructor(private m_mapView: MapView, private m_options: CameraKeyTrackAnimationOptions)];
    [now] is what [Date.now()] returns. *)
Definition new (options : Options) (now : Z) : result ConstructorError (t * list Event) :=
  let mode := match interpolation options with
              | Some m => m
              | None => InterpolateSmooth
              end in
  let options1 :=
    {| controlPoints := controlPoints options;
       name := name options;
       interpolation := interpolation options;
       loop := Some (nullish (loop options) LoopOnce);
       repetitions := Some (nullish (repetitions options) 1);
       rotateOnlyClockwise := Some (nullish (rotateOnlyClockwise options) true) |} in
  let animationName :=
    orElse (name options1) ("CameraKeyTrackAnimation" ++ numberToString now) in
  match controlPoints options1 with
  | [] => Err (NoKeyframes ".position" options1)
  | _ :: _ =>
      let tracks := keyTracks mode (controlPoints options1) in
      Ok ({| m_options := options1;
             m_running := false;
             m_onFinished := None;
             m_name := animationName;
             m_lastFrameTime := 0 |},
          [NewAnimationClip "cameraflyoveranimation" (-1) tracks]
          ++ (if validate tracks then [] else [LoggerError animationName])
          ++ [ ClipResetDuration; ClipTrim;
               ActionSetLoop (loop options1) (repetitions options1);
               ActionClampWhenFinished true;
               MixerOnFinished ])
  end.

Definition withOptions (this : t) (options : Options) : t :=
  {| m_options := options;
     m_running := m_running this;
     m_onFinished := m_onFinished this;
     m_name := m_name this;
     m_lastFrameTime := m_lastFrameTime this |}.

(** [set loop(value: THREE.AnimationActionLoopStyles)] *)
Definition setLoop (this : t) (value : LoopStyle) : t * list Event :=
  let o := m_options this in
  let options1 :=
    {| controlPoints := controlPoints o; name := name o;
       interpolation := interpolation o;
       loop := Some value;
       repetitions := repetitions o;
       rotateOnlyClockwise := rotateOnlyClockwise o |} in
  (withOptions this options1, [ActionSetLoop (loop options1) (repetitions options1)]).

(** [set repetitions(value: number)] *)
Definition setRepetitions (this : t) (value : Q) : t * list Event :=
  let o := m_options this in
  let options1 :=
    {| controlPoints := controlPoints o; name := name o;
       interpolation := interpolation o;
       loop := loop o;
       repetitions := Some value;
       rotateOnlyClockwise := rotateOnlyClockwise o |} in
  (withOptions this options1, [ActionSetLoop (loop options1) (repetitions options1)]).

(** [set rotateOnlyClockwise(value: boolean)] *)
Definition setRotateOnlyClockwise (this : t) (value : bool) : t * list Event :=
  let o := m_options this in
  (withOptions this
     {| controlPoints := controlPoints o; name := name o;
        interpolation := interpolation o;
        loop := loop o;
        repetitions := repetitions o;
        rotateOnlyClockwise := Some value |},
   []).

(** [stop(): void] *)
Definition stop (this : t) : t * list Event :=
  ({| m_options := m_options this;
      m_running := false;
      m_onFinished := m_onFinished this;
      m_name := m_name this;
      m_lastFrameTime := m_lastFrameTime this |},
   [MapViewRemoveRenderListener; MapViewEndAnimation]
   ++ match m_onFinished this with
      | Some callback => [OnFinished callback]
      | None => []
      end).

(** [start(time?: number, onFinished?: () => void): void]; [now] is what
    [Date.now()] returns. *)
Definition start (this : t) (time : option Q) (onFinished : option Callback) (now : Z)
  : t * list Event :=
  let (this1, stopped) := if m_running this then stop this else (this, []) in
  ({| m_options := m_options this1;
      m_running := true;
      m_onFinished := onFinished;
      m_name := m_name this1;
      m_lastFrameTime := now |},
   stopped ++ [ActionPlay; MapViewAddRenderListener; MapViewBeginAnimation]).

(** [isRunning(): boolean] *)
Definition isRunning (this : t) : bool := m_running this.

(** The calls a client can make on an animation, and their effect in
    sequence. *)
Inductive Call : Type :=
| CallSetLoop (value : LoopStyle)
| CallSetRepetitions (value : Q)
| CallSetRotateOnlyClockwise (value : bool)
| CallStart (time : option Q) (onFinished : option Callback) (now : Z)
| CallStop.

Definition perform (this : t) (c : Call) : t * list Event :=
  match c with
  | CallSetLoop v => setLoop this v
  | CallSetRepetitions v => setRepetitions this v
  | CallSetRotateOnlyClockwise v => setRotateOnlyClockwise this v
  | CallStart time onFinished now => start this time onFinished now
  | CallStop => stop this
  end.

Fixpoint performAll (this : t) (calls : list Call) : t * list Event :=
  match calls with
  | [] => (this, [])
  | c :: rest =>
      let (this1, events1) := perform this c in
      let (this2, events2) := performAll this1 rest in
      (this2, events1 ++ events2)
  end.

(** Every [stop()] in the sequence is made on a running animation. *)
Fixpoint stopsOnlyWhenRunning (running : bool) (calls : list Call) : bool :=
  match calls with
  | [] => true
  | CallStop :: rest => running && stopsOnlyWhenRunning false rest
  | CallStart _ _ _ :: rest => stopsOnlyWhenRunning true rest
  | _ :: rest => stopsOnlyWhenRunning running rest
  end.

(** The arguments of the last [setLoop] call on the animation action. *)
Fixpoint lastSetLoop (events : list Event) (previous : option (option LoopStyle * option Q))
  : option (option LoopStyle * option Q) :=
  match events with
  | [] => previous
  | ActionSetLoop mode count :: rest => lastSetLoop rest (Some (mode, count))
  | _ :: rest => lastSetLoop rest previous
  end.

Definition isBegin (e : Event) : bool :=
  match e with MapViewBeginAnimation => true | _ => false end.

Definition isEnd (e : Event) : bool :=
  match e with MapViewEndAnimation => true | _ => false end.

Definition isAddListener (e : Event) : bool :=
  match e with MapViewAddRenderListener => true | _ => false end.

Definition isRemoveListener (e : Event) : bool :=
  match e with MapViewRemoveRenderListener => true | _ => false end.

Definition isOnFinished (e : Event) : bool :=
  match e with OnFinished _ => true | _ => false end.

Definition count (p : Event -> bool) (events : list Event) : nat :=
  List.length (filter p events).

(** One for a running animation, zero for an idle one. *)
Definition bit (b : bool) : nat := if b then 1%nat else 0%nat.

End Animation.

End CameraKeyTrackAnimation.

(* ================================================================== *)
(** ** Sample themes *)
(* ================================================================== *)

Module Samples.

Import Theme Expr DefinitionResolver StyleSetEvaluator.

(** [{ "technique": "fill" }]: a style declaration without [when]. *)
Definition styleWithoutWhen : JsValue :=
  JObject [("technique", JString "fill")].

(** [{ "type": "color", "value": 5 }] *)
Definition colorBoxedNumber : JsValue :=
  JObject [("type", JString "color"); ("value", JNumber 5)].

(** [{ "type": "color", "value": "#f00" }], the [roadColor] of Theme.ts. *)
Definition roadColor : JsValue :=
  JObject [("type", JString "color"); ("value", JString "#f00")].

(** [definitions: { a: ["ref", "b"], b: ["ref", "a"] }] *)
Definition cyclicDefinitions : Definitions :=
  [ ("a", JArray [JString "ref"; JString "b"]);
    ("b", JArray [JString "ref"; JString "a"]) ].

(** [definitions: { x: ["ref", "nope"], a: ["ref", "b"], b: ["ref", "a"] }]:
    a cycle next to a reference to an undefined name. *)
Definition danglingAndCyclicDefinitions : Definitions :=
  [ ("x", JArray [JString "ref"; JString "nope"]);
    ("a", JArray [JString "ref"; JString "b"]);
    ("b", JArray [JString "ref"; JString "a"]) ].

(** [definitions: { link: ["ref", "alias"], alias: ["ref", "roadColor"], roadColor: {...} }] *)
Definition chainedDefinitions : Definitions :=
  [ ("link", JArray [JString "ref"; JString "alias"]);
    ("alias", JArray [JString "ref"; JString "roadColor"]);
    ("roadColor", roadColor) ].

(** R1: [{ when: true, final: true, technique: "fill" }] *)
Definition finalRule : JsValue :=
  JObject [("when", JBool true); ("final", JBool true); ("technique", JString "fill")].

(** R2: [{ when: true, technique: "line" }] *)
Definition laterRule : JsValue :=
  JObject [("when", JBool true); ("technique", JString "line")].

(** [{ when: ["==", ["get", "kind"], "road"], minZoomLevel: 5, maxZoomLevel: 10,
       technique: "solid-line", lineColor: "#00f" }] *)
Definition zoomedRule : JsValue :=
  JObject [ ("when", JArray [JString "=="; JArray [JString "get"; JString "kind"]; JString "road"]);
            ("minZoomLevel", JNumber 5); ("maxZoomLevel", JNumber 10);
            ("technique", JString "solid-line"); ("lineColor", JString "#00f") ].

(** [{ when: true, minZoomLevel: ["+", 2, 3], maxZoomLevel: ["+", ["get", "top"], 1],
       technique: "text" }]: both bounds are expressions. *)
Definition expressionBoundedRule : JsValue :=
  JObject [ ("when", JBool true);
            ("minZoomLevel", JArray [JString "+"; JNumber 2; JNumber 3]);
            ("maxZoomLevel",
             JArray [JString "+"; JArray [JString "get"; JString "top"]; JNumber 1]);
            ("technique", JString "text") ].

Definition roadTags : list (string * JsValue) := [("kind", JString "road")].

(** A feature whose tag [top] is 9. *)
Definition toppedTags : list (string * JsValue) := [("top", JNumber 9)].

End Samples.

(* ================================================================== *)
(** ** Sample animation *)
(* ================================================================== *)

Module CameraSamples.

Import CameraKeyTrackAnimation.

(** Stand-ins for the collaborators of the animation: coordinates as a
    latitude/longitude pair, a flat projection, the numeric codes of three.js
    for [LoopOnce] and [InterpolateSmooth], closures by name. *)
Definition flatProjection (g : Q * Q) : Vector3 :=
  {| x := snd g; y := fst g; z := 0 |}.

Definition axisAngle (axis : Vector3) (angle : Q) : Quaternion :=
  {| qx := x axis * angle; qy := y axis * angle; qz := z axis * angle; qw := 1 |}.

Definition composed (a b : Quaternion) : Quaternion :=
  {| qx := qx a + qx b; qy := qy a + qy b; qz := qz a + qz b; qw := qw a * qw b |}.

Definition berlin : @ControlPoint (Q * Q) :=
  {| timestamp := 0; target := (52.5, 13.4); pointName := Some "berlin";
     tilt := 45; heading := 0; distance := 1000 |}.

Definition paris : @ControlPoint (Q * Q) :=
  {| timestamp := 10; target := (48.9, 2.4); pointName := Some "paris";
     tilt := 30; heading := 90; distance := 2000 |}.

(** [{ controlPoints: [berlin, paris], repetitions: 3 }] *)
Definition flight : @Options (Q * Q) nat nat :=
  {| controlPoints := [berlin; paris]; name := None; interpolation := None;
     loop := None; repetitions := Some 3; rotateOnlyClockwise := None |}.

Definition newFlight (options : @Options (Q * Q) nat nat) (now : Z)
  : result (@ConstructorError (Q * Q) nat nat)
           (@t (Q * Q) nat nat string * list (@Event nat nat string)) :=
  new 2200%nat 2302%nat flatProjection (fun degrees => degrees) axisAngle composed
      (fun _ => "1600000000000") (fun _ => true) options now.

(** The animation [new CameraKeyTrackAnimation(mapView, flight)] and the
    calls its construction made. *)
Definition constructedFlight
  : @t (Q * Q) nat nat string * list (@Event nat nat string) :=
  match newFlight flight 0 with
  | Ok constructed => constructed
  | Err (NoKeyframes _ written) =>
      ({| m_options := written; m_running := false; m_onFinished := None;
          m_name := ""; m_lastFrameTime := 0 |}, [])
  end.

(** [{ controlPoints: [] }] *)
Definition emptyFlight : @Options (Q * Q) nat nat :=
  {| controlPoints := []; name := None; interpolation := None;
     loop := None; repetitions := None; rotateOnlyClockwise := None |}.

(** [start(undefined, done); start(); repetitions = 2; stop()] *)
Definition session : list (@Call nat string) :=
  [ CallStart None (Some "done") 1000; CallStart None None 2000;
    CallSetRepetitions 2; CallStop ].

End CameraSamples.

(* ================================================================== *)
(** ** Properties of the recognizers and of the data filter *)
(* ================================================================== *)

Import Theme.

Lemma typeof_string_inv (v : JsValue) :
  String.eqb (typeof v) "string" = true -> exists s, v = JString s.
Proof. destruct v; simpl; try discriminate; eauto. Qed.

Lemma typeof_undefined_inv (v : JsValue) :
  String.eqb (typeof v) "undefined" = true -> v = JUndefined.
Proof. destruct v; simpl; try discriminate; reflexivity. Qed.

Lemma lookup_setProp_other (k k' : string) (x : JsValue) fields :
  k <> k' -> lookup k (setProp k' x fields) = lookup k fields.
Proof.
  intros Hne. induction fields as [|[k0 v0] rest IH]; simpl.
  - destruct (String.eqb_spec k k'); [contradiction | reflexivity].
  - destruct (String.eqb_spec k' k0) as [->|Hk]; simpl.
    + destruct (String.eqb_spec k k0); [contradiction | reflexivity].
    + destruct (String.eqb_spec k k0); [reflexivity | exact IH].
Qed.

Lemma lookup_setProp_same (k : string) (x : JsValue) fields :
  lookup k (setProp k x fields) = Some x.
Proof.
  induction fields as [|[k0 v0] rest IH]; simpl.
  - rewrite String.eqb_refl. reflexivity.
  - destruct (String.eqb_spec k k0) as [->|Hk]; simpl.
    + rewrite String.eqb_refl. reflexivity.
    + destruct (String.eqb_spec k k0); [contradiction | exact IH].
Qed.

Lemma lookup_deleteProp_other (k k' : string) fields :
  k <> k' -> lookup k (deleteProp k' fields) = lookup k fields.
Proof.
  intros Hne. induction fields as [|[k0 v0] rest IH]; simpl; [reflexivity|].
  destruct (String.eqb_spec k' k0) as [->|Hk]; simpl.
  - destruct (String.eqb_spec k k0); [contradiction | exact IH].
  - destruct (String.eqb_spec k k0); [reflexivity | exact IH].
Qed.

Lemma lookup_deleteProp_same (k : string) fields :
  lookup k (deleteProp k fields) = None.
Proof.
  induction fields as [|[k0 v0] rest IH]; simpl; [reflexivity|].
  destruct (String.eqb_spec k k0) as [->|Hk]; simpl; [exact IH|].
  destruct (String.eqb_spec k k0); [contradiction | exact IH].
Qed.


Lemma isActualSelectorDefinition_inv (def : JsValue) :
  isActualSelectorDefinition def = true ->
  exists fields technique,
    def = JObject fields /\ lookup "technique" fields = Some (JString technique).
Proof.
  intros H. destruct def; simpl in H; try discriminate.
  unfold isActualSelectorDefinition in H. simpl in H.
  destruct (lookup "technique" fields) as [x|] eqn:E; simpl in H; [|discriminate].
  destruct (typeof_string_inv x H) as [s ->]. eauto.
Qed.

(** A declaration the recognizer accepts but that lacks [when] does not
    compile: its technique name is unknown, or [when] is reported missing. *)
Lemma compileStyle_without_when (isIPD isJE : JsValue -> bool)
      (definitions : DefinitionResolver.Definitions) (index : nat) (def : JsValue) :
  isActualSelectorDefinition def = true ->
  hasWhen def = false ->
  exists technique,
    getProp def "technique" = JString technique
    /\ StyleSetEvaluator.compileStyle isIPD isJE definitions index def
       = if existsb (String.eqb technique) StyleSetEvaluator.techniqueNames
         then Err (StyleSetEvaluator.MissingWhen (StyleSetEvaluator.InStyle index))
         else Err (StyleSetEvaluator.UnknownTechnique
                     (StyleSetEvaluator.InStyle index) technique).
Proof.
  intros Hsel Hwhen.
  destruct (isActualSelectorDefinition_inv def Hsel) as (fields & technique & -> & Htech).
  exists technique. split; [cbn [getProp]; rewrite Htech; reflexivity|].
  unfold StyleSetEvaluator.compileStyle.
  change (referenceName (JObject fields)) with (@None string).
  cbn [bind]. rewrite Hsel. cbn [getProp]. rewrite Htech.
  destruct (existsb (String.eqb technique) StyleSetEvaluator.techniqueNames);
    [rewrite Hwhen|]; reflexivity.
Qed.

Lemma compileStyles_fails (isIPD isJE : JsValue -> bool)
      (definitions : DefinitionResolver.Definitions) (def : JsValue)
      (styleSet : list JsValue) :
  (forall index, isOk (StyleSetEvaluator.compileStyle isIPD isJE definitions index def)
                 = false) ->
  In def styleSet ->
  forall index,
    isOk (StyleSetEvaluator.compileStyles isIPD isJE definitions index styleSet) = false.
Proof.
  intros Hdef. induction styleSet as [|d rest IH]; intros Hin index; [destruct Hin|].
  simpl. destruct Hin as [->|Hin].
  - specialize (Hdef index).
    destruct (StyleSetEvaluator.compileStyle isIPD isJE definitions index def);
      [discriminate | reflexivity].
  - destruct (StyleSetEvaluator.compileStyle isIPD isJE definitions index d);
      [|reflexivity].
    simpl. specialize (IH Hin (S index)).
    destruct (StyleSetEvaluator.compileStyles isIPD isJE definitions (S index) rest);
      [discriminate | reflexivity].
Qed.



Lemma isBoxedValue_spec (isIPD isJE : JsValue -> bool) (value : JsValue) :
  isBoxedValue isIPD isJE value = true <-> acceptedValue isIPD isJE value.
Proof.
  unfold isBoxedValue, acceptedValue. split.
  - intros H. repeat (apply orb_true_iff in H; destruct H as [H|H]); auto.
    + destruct value; simpl in H; try discriminate; eauto.
    + destruct value; simpl in H; try discriminate; eauto.
    + destruct value; simpl in H; try discriminate; eauto 6.
  - intros [[s ->]|[[q ->]|[[b ->]|[H|H]]]]; simpl; try reflexivity.
    + rewrite H, orb_true_r. reflexivity.
    + rewrite H. apply orb_true_r.
Qed.

(** C7, as stated, fails: [{ "type": "color", "value": 5 }] is accepted by
    [isBoxedDefinition], whatever the two imported recognizers answer, and
    its value, a number, is neither a string nor a dynamic value. *)
Lemma isBoxedDefinition_color_with_number :
  (forall isIPD isJE, isBoxedDefinition isIPD isJE Samples.colorBoxedNumber = true)
  /\ getProp Samples.colorBoxedNumber "type" = JString "color"
  /\ typeof (getProp Samples.colorBoxedNumber "value") = "number"
  /\ typeMatchesValue Samples.colorBoxedNumber = false.
Proof. repeat split. Qed.

(** C7, amended: a definition is accepted by [isBoxedDefinition] exactly when
    it is a non-null object whose [type] is absent or any string and whose
    [value] is a string, a number, a boolean, an interpolated property
    definition or a JSON expression; [type] and [value] are checked
    independently of each other, so replacing the declared type by any other
    string never changes the verdict. *)
Theorem isBoxedDefinition_checks_type_and_value_apart :
  forall (isIPD isJE : JsValue -> bool) (def : JsValue),
    (isBoxedDefinition isIPD isJE def = true <->
       (typeof def = "object" /\ def <> JNull)
       /\ (getProp def "type" = JUndefined \/ exists ty, getProp def "type" = JString ty)
       /\ acceptedValue isIPD isJE (getProp def "value"))
    /\ (forall fields ty1 ty2,
          isBoxedDefinition isIPD isJE (JObject (setProp "type" (JString ty1) fields))
          = isBoxedDefinition isIPD isJE (JObject (setProp "type" (JString ty2) fields))).
Proof.
  intros isIPD isJE def. split.
  - unfold isBoxedDefinition. rewrite !andb_true_iff, orb_true_iff, isBoxedValue_spec.
    split.
    + intros [[[Hobj Hnull] Hty] Hval]. repeat split.
      * apply String.eqb_eq. exact Hobj.
      * intros ->. discriminate.
      * destruct Hty as [Hty|Hty].
        -- right. apply typeof_string_inv. exact Hty.
        -- left. apply typeof_undefined_inv. exact Hty.
      * exact Hval.
    + intros [[Hobj Hnull] [Hty Hval]]. repeat split.
      * rewrite Hobj. reflexivity.
      * destruct def; try reflexivity. contradiction.
      * destruct Hty as [->|[ty ->]]; [right|left]; reflexivity.
      * exact Hval.
  - intros fields ty1 ty2. unfold isBoxedDefinition. simpl.
    rewrite !lookup_setProp_same, !lookup_setProp_other by discriminate.
    reflexivity.
Qed.

(** C9: the kind query of the filter answers [true] on every input, and a
    freshly constructed filter has [hasKindFilter] false. *)
Theorem wantsKind_is_permissive :
  (forall (filter : StyleSetDataFilter.t) (args : list JsValue),
      StyleSetDataFilter.wantsKind filter args = true)
  /\ (forall evaluator : StyleSetEvaluatorApi,
        StyleSetDataFilter.hasKindFilter (StyleSetDataFilter.new evaluator) = false).
Proof. split; intros; reflexivity. Qed.

(** C10: [StyleSetDataFilter.wantsLayer] ignores its zoom-level argument:
    for any two levels the answers agree, and both are the answer of the
    wrapped evaluator's [wantsLayer(layer)]. *)
Theorem wantsLayer_ignores_level :
  forall (filter : StyleSetDataFilter.t) (layer : string) (l1 l2 : Q),
    StyleSetDataFilter.wantsLayer filter layer l1
    = StyleSetDataFilter.wantsLayer filter layer l2
    /\ StyleSetDataFilter.wantsLayer filter layer l1
       = evaluatorWantsLayer (StyleSetDataFilter.styleSetEvaluator filter) layer.
Proof. intros filter layer l1 l2. split; reflexivity. Qed.

(* ================================================================== *)
(** ** Properties of the definition resolver *)
(* ================================================================== *)

Section ResolverFacts.

Import DefinitionResolver StyleSetEvaluator.

Variable definitions : Definitions.

Lemma lookup_some_in_keys (name : string) (fields : list (string * JsValue)) :
  lookup name fields <> None -> In name (map fst fields).
Proof.
  induction fields as [|[k v] rest IH]; simpl; [congruence|].
  destruct (String.eqb_spec name k) as [->|Hne]; auto.
Qed.

Lemma in_keys_lookup_some (name : string) (fields : list (string * JsValue)) :
  In name (map fst fields) -> lookup name fields <> None.
Proof.
  induction fields as [|[k v] rest IH]; simpl; [tauto|].
  intros [->|Hin].
  - rewrite String.eqb_refl. discriminate.
  - destruct (String.eqb name k); [discriminate | auto].
Qed.

Lemma existsb_eqb_false (name : string) (visited : list string) :
  existsb (String.eqb name) visited = false -> ~ In name visited.
Proof.
  intros H Hin. assert (existsb (String.eqb name) visited = true); [|congruence].
  apply existsb_exists. exists name. split; [assumption | apply String.eqb_refl].
Qed.

(** Names already followed are distinct and defined: there can be no more of
    them than there are definitions. *)
Lemma visited_bounded (visited : list string) :
  NoDup visited ->
  (forall n, In n visited -> lookup n definitions <> None) ->
  (List.length visited <= List.length definitions)%nat.
Proof.
  intros Hnd Hdef. rewrite <- (length_map fst definitions).
  apply NoDup_incl_length; [assumption|].
  intros n Hn. apply lookup_some_in_keys, Hdef, Hn.
Qed.

(** The step bound is never reached. *)
Lemma resolveFrom_never_exhausted (fuel : nat) :
  forall visited name,
    NoDup visited ->
    (forall n, In n visited -> lookup n definitions <> None) ->
    (List.length definitions < fuel + List.length visited)%nat ->
    resolveFrom definitions fuel visited name <> Err ResolutionExhausted.
Proof.
  induction fuel as [|fuel IH]; intros visited name Hnd Hdef Hlen.
  - pose proof (visited_bounded visited Hnd Hdef). simpl in Hlen. lia.
  - simpl. destruct (existsb (String.eqb name) visited) eqn:Hvis; [discriminate|].
    destruct (lookup name definitions) as [def|] eqn:Hdefn; [|discriminate].
    destruct (Theme.referenceName def) as [next|]; [|discriminate].
    apply IH.
    + constructor; [apply existsb_eqb_false; assumption | assumption].
    + intros n [<-|Hn]; [congruence | auto].
    + simpl. lia.
Qed.

Lemma resolve_never_exhausted (name : string) :
  resolve definitions name <> Err ResolutionExhausted.
Proof.
  unfold resolve. apply resolveFrom_never_exhausted.
  - constructor.
  - intros n [].
  - simpl. lia.
Qed.

(** From a name on a cycle, a bounded run can only stop on a repeated name. *)
Lemma resolveFrom_on_cycle (names : list string) :
  referenceCycle definitions names ->
  forall fuel visited name,
    In name names ->
    resolveFrom definitions fuel visited name = Err ResolutionExhausted
    \/ exists c, In c names
                 /\ resolveFrom definitions fuel visited name = Err (CyclicReferenceError c).
Proof.
  intros Hcycle. induction fuel as [|fuel IH]; intros visited name Hin; simpl; [auto|].
  destruct (existsb (String.eqb name) visited); [right; eauto|].
  destruct (Hcycle name Hin) as (next & Hnext & Hin').
  unfold nextReference in Hnext.
  destruct (lookup name definitions) as [def|]; [|discriminate].
  rewrite Hnext. apply IH. exact Hin'.
Qed.

Lemma resolve_on_cycle (names : list string) (name : string) :
  referenceCycle definitions names -> In name names ->
  exists c, In c names /\ resolve definitions name = Err (CyclicReferenceError c).
Proof.
  intros Hcycle Hin.
  destruct (resolveFrom_on_cycle names Hcycle (S (List.length definitions)) [] name Hin)
    as [Hex|Hc]; [|exact Hc].
  exfalso. exact (resolve_never_exhausted name Hex).
Qed.

Lemma last_cons_default (rest : list string) :
  forall a d, last (a :: rest) d = last rest a.
Proof.
  induction rest as [|b rest IH]; intros a d; [reflexivity|].
  change (last (a :: b :: rest) d) with (last (b :: rest) d).
  rewrite (IH b d), (IH b a). reflexivity.
Qed.

(** Every link of a chain is a defined name. *)
Lemma referenceChain_defined (rest : list string) :
  forall first last_def,
    referenceChain definitions first rest ->
    lookup (last rest first) definitions = Some last_def ->
    forall n, In n (first :: rest) -> lookup n definitions <> None.
Proof.
  induction rest as [|n0 rest IH]; intros first last_def Hchain Hlast n Hin.
  - simpl in *. destruct Hin as [<-|[]]. congruence.
  - destruct Hchain as [Hnext Hchain].
    destruct Hin as [<-|Hin].
    + unfold nextReference in Hnext.
      destruct (lookup first definitions); [discriminate | discriminate].
    + apply (IH n0 last_def); auto.
      rewrite <- (last_cons_default rest n0 first). exact Hlast.
Qed.

(** Along a chain of distinct names, resolution walks to the end. *)
Lemma resolveFrom_chain (rest : list string) :
  forall first visited fuel v,
    NoDup (first :: rest) ->
    (forall n, In n (first :: rest) -> ~ In n visited) ->
    (List.length rest < fuel)%nat ->
    referenceChain definitions first rest ->
    lookup (last rest first) definitions = Some v ->
    Theme.referenceName v = None ->
    resolveFrom definitions fuel visited first = Ok v.
Proof.
  induction rest as [|n0 rest IH]; intros first visited fuel v Hnd Hfresh Hfuel Hchain Hlast Hv.
  - destruct fuel as [|fuel]; [simpl in Hfuel; lia|]. simpl in *.
    destruct (existsb (String.eqb first) visited) eqn:Hvis.
    + exfalso. apply existsb_exists in Hvis. destruct Hvis as (x & Hx & Heq).
      apply String.eqb_eq in Heq. subst x. exact (Hfresh first (or_introl eq_refl) Hx).
    + rewrite Hlast, Hv. reflexivity.
  - destruct fuel as [|fuel]; [simpl in Hfuel; lia|].
    destruct Hchain as [Hnext Hchain]. cbn [resolveFrom].
    destruct (existsb (String.eqb first) visited) eqn:Hvis.
    + exfalso. apply existsb_exists in Hvis. destruct Hvis as (x & Hx & Heq).
      apply String.eqb_eq in Heq. subst x. exact (Hfresh first (or_introl eq_refl) Hx).
    + unfold nextReference in Hnext.
      destruct (lookup first definitions) as [def|]; [|discriminate].
      rewrite Hnext. apply IH.
      * inversion Hnd; assumption.
      * intros n Hn [<-|Hvisited].
        -- inversion Hnd; subst. auto.
        -- exact (Hfresh n (or_intror Hn) Hvisited).
      * simpl in Hfuel. lia.
      * exact Hchain.
      * rewrite <- (last_cons_default rest n0 first). exact Hlast.
      * exact Hv.
Qed.

Lemma resolve_chain (first : string) (rest : list string) (v : JsValue) :
  NoDup (first :: rest) ->
  referenceChain definitions first rest ->
  lookup (last rest first) definitions = Some v ->
  Theme.referenceName v = None ->
  resolve definitions first = Ok v.
Proof.
  intros Hnd Hchain Hlast Hv. unfold resolve.
  apply (resolveFrom_chain rest); auto.
  pose proof (visited_bounded (first :: rest) Hnd
                (referenceChain_defined rest first v Hchain Hlast)) as Hlen.
  simpl in Hlen. lia.
Qed.

(** What resolution returns is never itself a reference. *)
Lemma resolveFrom_ok_not_reference (fuel : nat) :
  forall visited name v,
    resolveFrom definitions fuel visited name = Ok v -> Theme.referenceName v = None.
Proof.
  induction fuel as [|fuel IH]; intros visited name v; simpl; [discriminate|].
  destruct (existsb (String.eqb name) visited); [discriminate|].
  destruct (lookup name definitions) as [def|]; [|discriminate].
  destruct (Theme.referenceName def) as [next|] eqn:Hnext.
  - apply IH.
  - intros [= <-]. exact Hnext.
Qed.

Lemma resolve_outcomes (name : string) :
  (exists v, resolve definitions name = Ok v /\ Theme.referenceName v = None)
  \/ (exists n, resolve definitions name = Err (UnresolvedReferenceError n))
  \/ (exists n, resolve definitions name = Err (CyclicReferenceError n)).
Proof.
  pose proof (resolve_never_exhausted name) as Hex.
  destruct (resolve definitions name) as [v|[n|n|]] eqn:Hres; eauto.
  - left. exists v. split; [reflexivity|].
    exact (resolveFrom_ok_not_reference _ _ _ _ Hres).
  - congruence.
Qed.

(** The cycle search finds a cycle whenever some name resolves to one. *)
Lemma findCycle_finds (names : list string) :
  (exists n c, In n names /\ resolve definitions n = Err (CyclicReferenceError c)) ->
  exists n c, In n names /\ resolve definitions n = Err (CyclicReferenceError c)
              /\ findCycle definitions names = Some (n, c).
Proof.
  induction names as [|n0 names IH]; intros (n & c & Hin & Hres); [destruct Hin|].
  simpl. destruct (resolve definitions n0) as [v|[u|c0|]] eqn:Hres0.
  - destruct Hin as [<-|Hin]; [congruence|].
    destruct IH as (m & c' & Hm & Hres' & Hfind); [eauto|]. exists m, c'. auto.
  - destruct Hin as [<-|Hin]; [congruence|].
    destruct IH as (m & c' & Hm & Hres' & Hfind); [eauto|]. exists m, c'. auto.
  - exists n0, c0. auto.
  - destruct Hin as [<-|Hin]; [congruence|].
    destruct IH as (m & c' & Hm & Hres' & Hfind); [eauto|]. exists m, c'. auto.
Qed.

Lemma compile_fails_on_cycle (isIPD isJE : JsValue -> bool)
      (names : list string) (name : string) (styleSet : list JsValue) :
  referenceCycle definitions names -> In name names ->
  exists n c, resolve definitions n = Err (CyclicReferenceError c)
              /\ compile isIPD isJE definitions styleSet
                 = Err (CyclicReference (InDefinition n) c).
Proof.
  intros Hcycle Hin.
  destruct (resolve_on_cycle names name Hcycle Hin) as (c & _ & Hres).
  destruct (Hcycle name Hin) as (next & Hnext & _).
  assert (Hkey : In name (map fst definitions)).
  { apply lookup_some_in_keys. unfold nextReference in Hnext.
    destruct (lookup name definitions); [discriminate | discriminate]. }
  destruct (findCycle_finds (map fst definitions)) as (n & c' & _ & Hres' & Hfind);
    [eauto|].
  exists n, c'. split; [exact Hres'|].
  unfold compile, checkDefinitions. rewrite Hfind. reflexivity.
Qed.

End ResolverFacts.

(** C3: reference cycles are detected.  (1) Resolution of any name ends
    within its step bound, with a value that is not a reference, an
    unresolved-reference error or a cyclic-reference error.  (2) From a name
    on a reference cycle, resolution fails with the cyclic-reference error,
    and [compile] fails with the cyclic-reference error for every style set,
    whatever else the theme holds.  (3) Along an acyclic chain of
    references, resolution returns the first definition that is not a
    reference. *)
Theorem cyclic_references_are_detected :
  forall (isIPD isJE : JsValue -> bool) (definitions : DefinitionResolver.Definitions),
    (forall name,
        (exists v, DefinitionResolver.resolve definitions name = Ok v
                   /\ referenceName v = None)
        \/ (exists n, DefinitionResolver.resolve definitions name
                      = Err (DefinitionResolver.UnresolvedReferenceError n))
        \/ (exists n, DefinitionResolver.resolve definitions name
                      = Err (DefinitionResolver.CyclicReferenceError n)))
    /\ (forall names name,
          DefinitionResolver.referenceCycle definitions names -> In name names ->
          (exists c, In c names
                     /\ DefinitionResolver.resolve definitions name
                        = Err (DefinitionResolver.CyclicReferenceError c))
          /\ (forall styleSet, exists n c,
                StyleSetEvaluator.compile isIPD isJE definitions styleSet
                = Err (StyleSetEvaluator.CyclicReference (StyleSetEvaluator.InDefinition n) c)))
    /\ (forall first rest v,
          NoDup (first :: rest) ->
          DefinitionResolver.referenceChain definitions first rest ->
          lookup (last rest first) definitions = Some v ->
          referenceName v = None ->
          DefinitionResolver.resolve definitions first = Ok v).
Proof.
  intros isIPD isJE definitions. split; [|split].
  - apply resolve_outcomes.
  - intros names name Hcycle Hin. split.
    + apply resolve_on_cycle; assumption.
    + intros styleSet.
      destruct (compile_fails_on_cycle definitions isIPD isJE names name styleSet Hcycle Hin)
        as (n & c & _ & ->).
      exists n, c. reflexivity.
  - intros first rest v. apply resolve_chain.
Qed.

Lemma cyclicDefinitions_cycle :
  DefinitionResolver.referenceCycle Samples.cyclicDefinitions ["a"; "b"].
Proof.
  intros n [<-|[<-|[]]].
  - exists "b". split; [reflexivity | simpl; auto].
  - exists "a". split; [reflexivity | simpl; auto].
Defined.

Lemma danglingAndCyclicDefinitions_cycle :
  DefinitionResolver.referenceCycle Samples.danglingAndCyclicDefinitions ["a"; "b"].
Proof.
  intros n [<-|[<-|[]]].
  - exists "b". split; [reflexivity | simpl; auto].
  - exists "a". split; [reflexivity | simpl; auto].
Defined.

(** C3 on [definitions: { a: ["ref","b"], b: ["ref","a"] }], on the same
    cycle behind a definition that refers to an undefined name, and on the
    chain [link -> alias -> roadColor]. *)
Lemma cyclic_references_are_detected_witness :
  ((exists c, In c ["a"; "b"]
              /\ DefinitionResolver.resolve Samples.cyclicDefinitions "a"
                 = Err (DefinitionResolver.CyclicReferenceError c))
   /\ (forall styleSet, exists n c,
         StyleSetEvaluator.compile isDynamicShape isArray Samples.cyclicDefinitions styleSet
         = Err (StyleSetEvaluator.CyclicReference (StyleSetEvaluator.InDefinition n) c)))
  /\ (forall styleSet, exists n c,
        StyleSetEvaluator.compile isDynamicShape isArray
          Samples.danglingAndCyclicDefinitions styleSet
        = Err (StyleSetEvaluator.CyclicReference (StyleSetEvaluator.InDefinition n) c))
  /\ StyleSetEvaluator.compile isDynamicShape isArray
       Samples.danglingAndCyclicDefinitions [Samples.finalRule]
     = Err (StyleSetEvaluator.CyclicReference (StyleSetEvaluator.InDefinition "a") "a")
  /\ DefinitionResolver.resolve Samples.chainedDefinitions "link" = Ok Samples.roadColor.
Proof.
  split; [|split; [|split]].
  - exact (proj1 (proj2 (cyclic_references_are_detected
                           isDynamicShape isArray Samples.cyclicDefinitions))
                 ["a"; "b"] "a" cyclicDefinitions_cycle (or_introl eq_refl)).
  - exact (proj2 (proj1 (proj2 (cyclic_references_are_detected
                                  isDynamicShape isArray
                                  Samples.danglingAndCyclicDefinitions))
                        ["a"; "b"] "a" danglingAndCyclicDefinitions_cycle
                        (or_introl eq_refl))).
  - reflexivity.
  - apply (proj2 (proj2 (cyclic_references_are_detected
                           isDynamicShape isArray Samples.chainedDefinitions))
                 "link" ["alias"; "roadColor"]).
    + repeat constructor; simpl; intuition discriminate.
    + simpl. repeat split.
    + reflexivity.
    + reflexivity.
Defined.

(* ================================================================== *)
(** ** Properties of the matching algorithm *)
(* ================================================================== *)

Section MatchingFacts.

Import Expr StyleSetEvaluator.

Variable evaluate : Evaluator.

Notation matchFrom := (matchFrom evaluate).
Notation matchStyle := (matchStyle evaluate).
Notation zoomInRange := (zoomInRange evaluate).
Notation evalBound := (evalBound evaluate).

(** Rules declared after a matched [final] rule leave no trace. *)
Lemma matchFrom_stops_at_final (ctx : Context) (layerName : string)
      (r : JsValue) (post : list JsValue) (t : Technique) (pre : list JsValue) :
  forall index,
    isCandidate layerName r = true ->
    isFinal r = true ->
    matchStyle ctx (index + List.length pre) r = Matched t ->
    matchFrom ctx layerName index (pre ++ r :: post)
    = matchFrom ctx layerName index (pre ++ [r]).
Proof.
  induction pre as [|s pre IH]; intros index Hcand Hfinal Hmatch.
  - simpl in *. rewrite Nat.add_0_r in Hmatch. rewrite Hcand, Hmatch, Hfinal. reflexivity.
  - simpl. rewrite (IH (S index)); auto.
    simpl in Hmatch. rewrite Nat.add_succ_r in Hmatch. exact Hmatch.
Qed.

Lemma evalBound_absent (ctx : Context) (key : string) (style : JsValue) :
  getProp style key = JUndefined -> evalBound ctx key style = Ok None.
Proof. unfold StyleSetEvaluator.evalBound. intros ->. reflexivity. Qed.

Lemma evalBound_number (ctx : Context) (key : string) (style : JsValue) (q : Q) :
  getProp style key = JNumber q -> evalBound ctx key style = Ok (Some q).
Proof. unfold StyleSetEvaluator.evalBound. intros ->. reflexivity. Qed.

Lemma zoomInRange_spec (ctx : Context) (style : JsValue) (lo hi : option Q) :
  evalBound ctx "minZoomLevel" style = Ok lo ->
  evalBound ctx "maxZoomLevel" style = Ok hi ->
  zoomInRange ctx style = Ok (aboveMin lo (zoomLevel ctx) && belowMax hi (zoomLevel ctx))
  /\ (aboveMin lo (zoomLevel ctx) && belowMax hi (zoomLevel ctx) = true <->
        (forall m, lo = Some m -> m <= zoomLevel ctx)
        /\ (forall m, hi = Some m -> zoomLevel ctx <= m)).
Proof.
  intros Hlo Hhi. split.
  - unfold StyleSetEvaluator.zoomInRange. rewrite Hlo, Hhi. reflexivity.
  - rewrite andb_true_iff. unfold aboveMin, belowMax.
    destruct lo as [l|], hi as [h|]; rewrite ?Qle_bool_iff; split.
    all: try (intros [H1 H2]; split; intros m; intros [= <-]; assumption).
    all: try (intros [H1 H2]; split; first [apply H1 | apply H2 | reflexivity]; reflexivity).
    all: try (intros [H1 H2]; split; intros m; discriminate).
Qed.

Lemma zoomBound_evalBound (ctx : Context) (style : JsValue) (key : string)
      (bound : option Q) :
  zoomBound evaluate ctx style key bound -> evalBound ctx key style = Ok bound.
Proof.
  intros [Habsent|q Hnumber|q Hobject Hnull Heval].
  - apply evalBound_absent. exact Habsent.
  - apply evalBound_number. exact Hnumber.
  - unfold StyleSetEvaluator.evalBound.
    destruct (getProp style key); simpl in *; try discriminate; try contradiction;
      rewrite Heval; reflexivity.
Qed.

Lemma zoomInRange_outside (ctx : Context) (style : JsValue) (lo hi : option Q) :
  evalBound ctx "minZoomLevel" style = Ok lo ->
  evalBound ctx "maxZoomLevel" style = Ok hi ->
  (exists m, lo = Some m /\ zoomLevel ctx < m)
  \/ (exists m, hi = Some m /\ m < zoomLevel ctx) ->
  zoomInRange ctx style = Ok false.
Proof.
  intros Hlo Hhi Hout.
  rewrite (proj1 (zoomInRange_spec ctx style lo hi Hlo Hhi)). f_equal.
  destruct Hout as [(m & -> & Hlt)|(m & -> & Hlt)]; simpl.
  - destruct (Qle_bool m (zoomLevel ctx)) eqn:Hle; [|reflexivity].
    apply Qle_bool_iff in Hle. exfalso. exact (Qlt_not_le _ _ Hlt Hle).
  - destruct (Qle_bool (zoomLevel ctx) m) eqn:Hle; [|apply andb_false_r].
    apply Qle_bool_iff in Hle. exfalso. exact (Qlt_not_le _ _ Hlt Hle).
Qed.

Lemma getProp_withoutZoomBounds (style : JsValue) (key : string) :
  key <> "minZoomLevel" -> key <> "maxZoomLevel" ->
  getProp (withoutZoomBounds style) key = getProp style key.
Proof.
  intros Hmin Hmax. destruct style; try reflexivity.
  cbn [withoutZoomBounds getProp].
  rewrite !lookup_deleteProp_other by assumption. reflexivity.
Qed.

Lemma zoomInRange_withoutZoomBounds (ctx : Context) (fields : list (string * JsValue)) :
  zoomInRange ctx (withoutZoomBounds (JObject fields)) = Ok true.
Proof.
  unfold StyleSetEvaluator.zoomInRange, StyleSetEvaluator.evalBound.
  cbn [withoutZoomBounds getProp].
  rewrite lookup_deleteProp_same.
  rewrite (lookup_deleteProp_other "maxZoomLevel" "minZoomLevel") by discriminate.
  rewrite lookup_deleteProp_same. reflexivity.
Qed.

Lemma filter_deleteProp_rejected (keep : string * JsValue -> bool) (key : string)
      (fields : list (string * JsValue)) :
  (forall v, keep (key, v) = false) ->
  filter keep (deleteProp key fields) = filter keep fields.
Proof.
  intros Hkey. induction fields as [|[k v] rest IH]; simpl; [reflexivity|].
  destruct (String.eqb_spec key k) as [<-|Hne].
  - rewrite Hkey. exact IH.
  - simpl. rewrite IH. reflexivity.
Qed.

Lemma buildTechnique_withoutZoomBounds (ctx : Context) (index : nat) (style : JsValue) :
  buildTechnique evaluate ctx index (withoutZoomBounds style)
  = buildTechnique evaluate ctx index style.
Proof.
  destruct style; try reflexivity.
  unfold StyleSetEvaluator.buildTechnique, StyleSetEvaluator.computeRenderOrder,
    mergedAttributes, attrOverrides.
  rewrite !getProp_withoutZoomBounds by discriminate.
  replace (baseAttributes (withoutZoomBounds (JObject fields)))
    with (baseAttributes (JObject fields)); [reflexivity|].
  unfold baseAttributes, withoutZoomBounds.
  rewrite !filter_deleteProp_rejected; reflexivity.
Qed.

(** Inside its zoom range, a rule is matched as if it had no zoom bounds. *)
Lemma matchStyle_withoutZoomBounds (ctx : Context) (index : nat) (style : JsValue) :
  zoomInRange ctx style = Ok true ->
  matchStyle ctx index style = matchStyle ctx index (withoutZoomBounds style).
Proof.
  intros Hin. destruct style; try reflexivity.
  unfold StyleSetEvaluator.matchStyle.
  rewrite Hin, zoomInRange_withoutZoomBounds, buildTechnique_withoutZoomBounds.
  rewrite getProp_withoutZoomBounds by discriminate. reflexivity.
Qed.

Lemma matchStyle_outside (ctx : Context) (index : nat) (style : JsValue) :
  zoomInRange ctx style = Ok false -> matchStyle ctx index style = Skipped.
Proof. intros Hout. unfold StyleSetEvaluator.matchStyle. rewrite Hout. reflexivity. Qed.

Lemma matchFrom_single (ctx : Context) (layerName : string) (style other : JsValue)
      (index : nat) :
  isCandidate layerName other = isCandidate layerName style ->
  isFinal other = isFinal style ->
  matchStyle ctx index other = matchStyle ctx index style ->
  matchFrom ctx layerName index [other] = matchFrom ctx layerName index [style].
Proof. intros Hc Hf Hm. simpl. rewrite Hc, Hf, Hm. reflexivity. Qed.

Lemma matchFrom_single_skipped (ctx : Context) (layerName : string) (style : JsValue)
      (index : nat) :
  matchStyle ctx index style = Skipped ->
  matchFrom ctx layerName index [style] = ([], []).
Proof. intros Hm. simpl. rewrite Hm. destruct (isCandidate layerName style); reflexivity. Qed.

End MatchingFacts.

(** C2: [final: true] short-circuit.  When a candidate rule [r] with
    [final: true] matches, the result (techniques and diagnostics) is the one
    of the style set cut after [r]: no rule declared after [r] is evaluated
    or contributes.  In particular, when [r] is the first rule, only its
    technique is returned, whatever follows. *)
Theorem final_rule_stops_matching :
  forall (evaluate : Expr.Evaluator) (pre : list JsValue) (r : JsValue)
         (post : list JsValue) (layerName : string)
         (featureTags : list (string * JsValue)) (zoomLevel : Q)
         (t : StyleSetEvaluator.Technique),
    StyleSetEvaluator.isCandidate layerName r = true ->
    StyleSetEvaluator.isFinal r = true ->
    StyleSetEvaluator.matchStyle evaluate
      {| Expr.featureTags := featureTags; Expr.zoomLevel := zoomLevel |}
      (List.length pre) r = StyleSetEvaluator.Matched t ->
    StyleSetEvaluator.getMatchingTechniquesLogged evaluate
      {| StyleSetEvaluator.styles := pre ++ r :: post |} layerName featureTags zoomLevel
    = StyleSetEvaluator.getMatchingTechniquesLogged evaluate
        {| StyleSetEvaluator.styles := pre ++ [r] |} layerName featureTags zoomLevel
    /\ (pre = [] ->
        StyleSetEvaluator.getMatchingTechniques evaluate
          {| StyleSetEvaluator.styles := r :: post |} layerName featureTags zoomLevel
        = [t]).
Proof.
  intros evaluate pre r post layerName featureTags zoomLevel t Hcand Hfinal Hmatch.
  split.
  - unfold StyleSetEvaluator.getMatchingTechniquesLogged. simpl.
    apply (matchFrom_stops_at_final evaluate _ layerName r post t pre 0%nat); assumption.
  - intros ->. unfold StyleSetEvaluator.getMatchingTechniques,
      StyleSetEvaluator.getMatchingTechniquesLogged. simpl in *.
    rewrite Hcand, Hmatch, Hfinal. reflexivity.
Qed.

(** C2 on R1 [{when: true, final: true}] followed by R2 [{when: true}]. *)
Lemma final_rule_stops_matching_witness :
  StyleSetEvaluator.getMatchingTechniques Expr.evaluate
    {| StyleSetEvaluator.styles := [Samples.finalRule; Samples.laterRule] |}
    "roads" [] 10
  = [ {| StyleSetEvaluator.techniqueName := "fill";
         StyleSetEvaluator.renderOrder := 0;
         StyleSetEvaluator.attributes := [] |} ].
Proof.
  exact (proj2 (final_rule_stops_matching Expr.evaluate [] Samples.finalRule
                  [Samples.laterRule] "roads" [] 10 _ eq_refl eq_refl eq_refl) eq_refl).
Defined.

(** C5: inclusive zoom bounds.  With the bounds of a rule evaluated (a
    number, an expression evaluated against feature tags and zoom level, or
    nothing when absent), the matcher treats the rule exactly as follows:
    when [minZoomLevel <= zoomLevel <= maxZoomLevel], an absent bound
    restricting nothing on its side, the rule is matched as if it had no zoom
    bounds at all (and yields its technique when its [when] is truthy and the
    technique builds); when the zoom level is below the minimum or above the
    maximum, the rule is skipped.  A rule with [minZoomLevel: 5] and
    [maxZoomLevel: 10] gives at zoom 5 and at zoom 10 what the rule without
    bounds gives, and nothing at 4.999 and at 10.001. *)
Theorem zoom_bounds_are_inclusive :
  forall evaluate : Expr.Evaluator,
    (forall ctx index style lo hi,
        StyleSetEvaluator.zoomBound evaluate ctx style "minZoomLevel" lo ->
        StyleSetEvaluator.zoomBound evaluate ctx style "maxZoomLevel" hi ->
        ((forall m, lo = Some m -> m <= Expr.zoomLevel ctx) ->
         (forall m, hi = Some m -> Expr.zoomLevel ctx <= m) ->
         StyleSetEvaluator.matchStyle evaluate ctx index style
         = StyleSetEvaluator.matchStyle evaluate ctx index
             (StyleSetEvaluator.withoutZoomBounds style)
         /\ (forall v t,
               StyleSetEvaluator.evalWhen evaluate ctx (getProp style "when") = Ok v ->
               StyleSetEvaluator.truthy v = true ->
               StyleSetEvaluator.buildTechnique evaluate ctx index style = Ok t ->
               StyleSetEvaluator.matchStyle evaluate ctx index style
               = StyleSetEvaluator.Matched t))
        /\ ((exists m, lo = Some m /\ Expr.zoomLevel ctx < m)
            \/ (exists m, hi = Some m /\ m < Expr.zoomLevel ctx) ->
            StyleSetEvaluator.matchStyle evaluate ctx index style
            = StyleSetEvaluator.Skipped))
    /\ (forall fields layerName tags,
          getProp (JObject fields) "minZoomLevel" = JNumber 5 ->
          getProp (JObject fields) "maxZoomLevel" = JNumber 10 ->
          let at_ zoom :=
            StyleSetEvaluator.getMatchingTechniquesLogged evaluate
              {| StyleSetEvaluator.styles := [JObject fields] |} layerName tags zoom in
          let unbounded zoom :=
            StyleSetEvaluator.getMatchingTechniquesLogged evaluate
              {| StyleSetEvaluator.styles :=
                   [StyleSetEvaluator.withoutZoomBounds (JObject fields)] |}
              layerName tags zoom in
          at_ 5 = unbounded 5 /\ at_ 10 = unbounded 10
          /\ at_ 4.999 = ([], []) /\ at_ 10.001 = ([], [])).
Proof.
  intros evaluate.
  assert (Hgeneral :
    forall ctx style lo hi,
      StyleSetEvaluator.zoomBound evaluate ctx style "minZoomLevel" lo ->
      StyleSetEvaluator.zoomBound evaluate ctx style "maxZoomLevel" hi ->
      ((forall m, lo = Some m -> m <= Expr.zoomLevel ctx) ->
       (forall m, hi = Some m -> Expr.zoomLevel ctx <= m) ->
       StyleSetEvaluator.zoomInRange evaluate ctx style = Ok true)
      /\ ((exists m, lo = Some m /\ Expr.zoomLevel ctx < m)
          \/ (exists m, hi = Some m /\ m < Expr.zoomLevel ctx) ->
          StyleSetEvaluator.zoomInRange evaluate ctx style = Ok false)).
  { intros ctx style lo hi Hlo Hhi.
    apply zoomBound_evalBound in Hlo. apply zoomBound_evalBound in Hhi.
    split.
    - intros Hmin Hmax.
      destruct (zoomInRange_spec evaluate ctx style lo hi Hlo Hhi) as [-> Hiff].
      f_equal. apply Hiff. split; assumption.
    - apply zoomInRange_outside; assumption. }
  split.
  - intros ctx index style lo hi Hlo Hhi.
    destruct (Hgeneral ctx style lo hi Hlo Hhi) as [Hinside Houtside]. split.
    + intros Hmin Hmax. specialize (Hinside Hmin Hmax). split.
      * apply matchStyle_withoutZoomBounds. exact Hinside.
      * intros v t Hwhen Htruthy Hbuild. unfold StyleSetEvaluator.matchStyle.
        rewrite Hinside, Hwhen, Htruthy, Hbuild. reflexivity.
    + intros Hout. apply matchStyle_outside. apply Houtside. exact Hout.
  - intros fields layerName tags Hmin Hmax at_ unbounded.
    assert (Hbounds : forall zoom,
               let ctx := {| Expr.featureTags := tags; Expr.zoomLevel := zoom |} in
               StyleSetEvaluator.zoomBound evaluate ctx (JObject fields)
                 "minZoomLevel" (Some 5)
               /\ StyleSetEvaluator.zoomBound evaluate ctx (JObject fields)
                    "maxZoomLevel" (Some 10)).
    { intros zoom ctx. split; apply StyleSetEvaluator.BoundNumber; assumption. }
    assert (Hsame : forall zoom,
               Qle_bool 5 zoom && Qle_bool zoom 10 = true -> at_ zoom = unbounded zoom).
    { intros zoom Hin. unfold at_, unbounded, StyleSetEvaluator.getMatchingTechniquesLogged.
      cbn [StyleSetEvaluator.styles]. symmetry. apply matchFrom_single.
      - unfold StyleSetEvaluator.isCandidate, StyleSetEvaluator.layerUnset,
          StyleSetEvaluator.namesLayer.
        rewrite getProp_withoutZoomBounds by discriminate. reflexivity.
      - unfold StyleSetEvaluator.isFinal.
        rewrite getProp_withoutZoomBounds by discriminate. reflexivity.
      - symmetry. apply matchStyle_withoutZoomBounds.
        destruct (Hbounds zoom) as [Hlo Hhi].
        apply zoomBound_evalBound in Hlo. apply zoomBound_evalBound in Hhi.
        rewrite (proj1 (zoomInRange_spec evaluate _ _ _ _ Hlo Hhi)).
        f_equal. exact Hin. }
    assert (Hnone : forall zoom,
               zoom < 5 \/ 10 < zoom -> at_ zoom = ([], [])).
    { intros zoom Hout. unfold at_, StyleSetEvaluator.getMatchingTechniquesLogged.
      cbn [StyleSetEvaluator.styles]. apply matchFrom_single_skipped.
      destruct (Hbounds zoom) as [Hlo Hhi].
      apply matchStyle_outside. apply (proj2 (Hgeneral _ _ _ _ Hlo Hhi)).
      destruct Hout as [Hout|Hout]; [left|right]; eexists; split;
        first [reflexivity | exact Hout]. }
    repeat split.
    + apply Hsame. reflexivity.
    + apply Hsame. reflexivity.
    + apply Hnone. left. reflexivity.
    + apply Hnone. right. reflexivity.
Qed.

Lemma expressionBoundedRule_bounds (zoom : Q) :
  let ctx := {| Expr.featureTags := Samples.toppedTags; Expr.zoomLevel := zoom |} in
  StyleSetEvaluator.zoomBound Expr.evaluate ctx Samples.expressionBoundedRule
    "minZoomLevel" (Some (2 + 3))
  /\ StyleSetEvaluator.zoomBound Expr.evaluate ctx Samples.expressionBoundedRule
       "maxZoomLevel" (Some (9 + 1)).
Proof.
  split; apply StyleSetEvaluator.BoundExpression;
    first [reflexivity | discriminate].
Defined.

(** C5 on the rule [{minZoomLevel: 5, maxZoomLevel: 10, when: kind == "road"}]
    and on a rule whose bounds are the expressions [["+", 2, 3]] and
    [["+", ["get", "top"], 1]], for a feature with [top] 9. *)
Lemma zoom_bounds_are_inclusive_witness :
  (let roads zoom :=
     StyleSetEvaluator.getMatchingTechniques Expr.evaluate
       {| StyleSetEvaluator.styles := [Samples.zoomedRule] |}
       "roads" Samples.roadTags zoom in
   let technique :=
     {| StyleSetEvaluator.techniqueName := "solid-line";
        StyleSetEvaluator.renderOrder := 0;
        StyleSetEvaluator.attributes := [("lineColor", JString "#00f")] |} in
   roads 5 = [technique] /\ roads 10 = [technique]
   /\ roads 4.999 = [] /\ roads 10.001 = [])
  /\ (let at_ zoom :=
        StyleSetEvaluator.getMatchingTechniquesLogged Expr.evaluate
          {| StyleSetEvaluator.styles := [Samples.zoomedRule] |}
          "roads" Samples.roadTags zoom in
      let unbounded zoom :=
        StyleSetEvaluator.getMatchingTechniquesLogged Expr.evaluate
          {| StyleSetEvaluator.styles :=
               [StyleSetEvaluator.withoutZoomBounds Samples.zoomedRule] |}
          "roads" Samples.roadTags zoom in
      at_ 5 = unbounded 5 /\ at_ 10 = unbounded 10
      /\ at_ 4.999 = ([], []) /\ at_ 10.001 = ([], []))
  /\ (let labels zoom :=
        StyleSetEvaluator.matchStyle Expr.evaluate
          {| Expr.featureTags := Samples.toppedTags; Expr.zoomLevel := zoom |}
          0 Samples.expressionBoundedRule in
      let technique :=
        {| StyleSetEvaluator.techniqueName := "text";
           StyleSetEvaluator.renderOrder := 0;
           StyleSetEvaluator.attributes := [] |} in
      labels 5 = StyleSetEvaluator.Matched technique
      /\ labels 10 = StyleSetEvaluator.Matched technique
      /\ labels 4.999 = StyleSetEvaluator.Skipped
      /\ labels 10.001 = StyleSetEvaluator.Skipped).
Proof.
  assert (Hlabels : forall zoom,
             let ctx := {| Expr.featureTags := Samples.toppedTags;
                           Expr.zoomLevel := zoom |} in
             ((forall m, Some (2 + 3) = Some m -> m <= zoom) ->
              (forall m, Some (9 + 1) = Some m -> zoom <= m) ->
              StyleSetEvaluator.matchStyle Expr.evaluate ctx 0 Samples.expressionBoundedRule
              = StyleSetEvaluator.Matched
                  {| StyleSetEvaluator.techniqueName := "text";
                     StyleSetEvaluator.renderOrder := 0;
                     StyleSetEvaluator.attributes := [] |})
             /\ ((exists m, Some (2 + 3) = Some m /\ zoom < m)
                 \/ (exists m, Some (9 + 1) = Some m /\ m < zoom) ->
                 StyleSetEvaluator.matchStyle Expr.evaluate ctx 0
                   Samples.expressionBoundedRule = StyleSetEvaluator.Skipped)).
  { intros zoom ctx.
    destruct (expressionBoundedRule_bounds zoom) as [Hlo Hhi].
    destruct (proj1 (zoom_bounds_are_inclusive Expr.evaluate)
                    ctx 0%nat Samples.expressionBoundedRule _ _ Hlo Hhi)
      as [Hinside Houtside].
    split; [|exact Houtside].
    intros Hmin Hmax.
    exact (proj2 (Hinside Hmin Hmax) (JBool true) _ eq_refl eq_refl eq_refl). }
  split; [repeat split|split; [|refine (conj _ (conj _ (conj _ _)))]].
  - exact (proj2 (zoom_bounds_are_inclusive Expr.evaluate)
                 (match Samples.zoomedRule with JObject fields => fields | _ => [] end)
                 "roads" Samples.roadTags eq_refl eq_refl).
  - apply (proj1 (Hlabels 5)); intros m [= <-]; unfold Qle; simpl; lia.
  - apply (proj1 (Hlabels 10)); intros m [= <-]; unfold Qle; simpl; lia.
  - apply (proj2 (Hlabels 4.999)). left. eexists. split; [reflexivity|].
    unfold Qlt; simpl; lia.
  - apply (proj2 (Hlabels 10.001)). right. eexists. split; [reflexivity|].
    unfold Qlt; simpl; lia.
Defined.

(* ================================================================== *)
(** ** Further properties of the recognizers of Theme.ts *)
(* ================================================================== *)

Lemma isLiteralDefinition_inv (v : JsValue) :
  isLiteralDefinition v = true ->
  (exists s, v = JString s) \/ (exists q, v = JNumber q) \/ (exists b, v = JBool b).
Proof. destruct v; simpl; try discriminate; eauto. Qed.

Lemma isLiteralDefinition_boxed_value (isIPD isJE : JsValue -> bool) (v : JsValue) :
  isLiteralDefinition v = true -> isBoxedValue isIPD isJE v = true.
Proof.
  unfold isLiteralDefinition, isBoxedValue. intros ->. reflexivity.
Qed.

(** X1: [isJsonExprReference] accepts exactly the two-element arrays
    [["ref", name]] with a string [name]: a longer or shorter array, another
    head, or a non-string name is rejected. *)
Theorem isJsonExprReference_exact_shape :
  forall value : JsValue,
    isJsonExprReference value = true <->
    exists name, value = JArray [JString "ref"; JString name].
Proof.
  intros value. split.
  - unfold isJsonExprReference. destruct value; simpl; try discriminate.
    destruct items as [|a [|b [|c rest]]]; simpl; try discriminate.
    destruct a; simpl; try discriminate.
    destruct (String.eqb_spec s "ref") as [->|]; simpl; [|discriminate].
    intros Hb. destruct (typeof_string_inv b Hb) as [name ->]. eauto.
  - intros [name ->]. reflexivity.
Qed.

(** X2: a literal definition is recognized by nothing else: it is neither a
    boxed definition (whatever the two imported recognizers answer), nor a
    style declaration, nor a reference; and a reference is never a style
    declaration. *)
Theorem literal_definitions_are_only_literals :
  forall (isIPD isJE : JsValue -> bool) (def : JsValue),
    (isLiteralDefinition def = true ->
     isBoxedDefinition isIPD isJE def = false
     /\ isActualSelectorDefinition def = false
     /\ isJsonExprReference def = false)
    /\ (isJsonExprReference def = true ->
        isActualSelectorDefinition def = false /\ isLiteralDefinition def = false).
Proof.
  intros isIPD isJE def. split.
  - intros H. destruct (isLiteralDefinition_inv def H) as [[s ->]|[[q ->]|[b ->]]];
      repeat split.
  - intros H. apply isJsonExprReference_exact_shape in H. destruct H as [name ->].
    split; reflexivity.
Qed.

Lemma literal_definitions_are_only_literals_witness :
  (isBoxedDefinition isDynamicShape isArray (JString "#f00") = false
   /\ isActualSelectorDefinition (JString "#f00") = false
   /\ isJsonExprReference (JString "#f00") = false)
  /\ (isActualSelectorDefinition (JArray [JString "ref"; JString "roadColor"]) = false
      /\ isLiteralDefinition (JArray [JString "ref"; JString "roadColor"]) = false).
Proof.
  split.
  - exact (proj1 (literal_definitions_are_only_literals
                    isDynamicShape isArray (JString "#f00")) eq_refl).
  - exact (proj2 (literal_definitions_are_only_literals
                    isDynamicShape isArray (JArray [JString "ref"; JString "roadColor"]))
                 eq_refl).
Defined.

(** X3: on an array, and on an object with neither [type] nor [value],
    [isBoxedDefinition] answers what the two imported recognizers answer on
    [undefined]: such a definition (a reference ["ref", name] among them) is
    rejected exactly when both reject [undefined]. *)
Theorem isBoxedDefinition_without_value :
  forall (isIPD isJE : JsValue -> bool),
    (forall items,
        isBoxedDefinition isIPD isJE (JArray items)
        = isIPD JUndefined || isJE JUndefined)
    /\ (forall fields,
          isBoxedDefinition isIPD isJE (JObject (deleteProp "type" (deleteProp "value" fields)))
          = isIPD JUndefined || isJE JUndefined)
    /\ (forall def,
          isJsonExprReference def = true ->
          isBoxedDefinition isIPD isJE def = isIPD JUndefined || isJE JUndefined).
Proof.
  intros isIPD isJE. split; [|split].
  - intros items. reflexivity.
  - intros fields. unfold isBoxedDefinition. simpl.
    rewrite lookup_deleteProp_same.
    rewrite lookup_deleteProp_other by discriminate.
    rewrite lookup_deleteProp_same. reflexivity.
  - intros def H. apply isJsonExprReference_exact_shape in H. destruct H as [name ->].
    reflexivity.
Qed.

Lemma isBoxedDefinition_without_value_witness :
  isBoxedDefinition isDynamicShape isArray (JArray [JString "ref"; JString "roadColor"])
  = isDynamicShape JUndefined || isArray JUndefined.
Proof.
  exact (proj2 (proj2 (isBoxedDefinition_without_value isDynamicShape isArray))
               (JArray [JString "ref"; JString "roadColor"]) eq_refl).
Defined.

(** X4: the boxed and the style recognizers overlap: an object with a string
    [technique], a literal [value] and no [type] is accepted by both, so
    which of the two a caller tests first decides how it is treated. *)
Theorem boxed_and_style_recognizers_overlap :
  forall (isIPD isJE : JsValue -> bool) (fields : list (string * JsValue))
         (technique : string) (value : JsValue),
    isLiteralDefinition value = true ->
    let def :=
      JObject (setProp "technique" (JString technique)
                 (setProp "value" value (deleteProp "type" fields))) in
    isBoxedDefinition isIPD isJE def = true
    /\ isActualSelectorDefinition def = true.
Proof.
  intros isIPD isJE fields technique value Hlit def. split.
  - unfold def, isBoxedDefinition. simpl.
    rewrite !(lookup_setProp_other "type") by discriminate.
    rewrite lookup_deleteProp_same.
    rewrite (lookup_setProp_other "value" "technique") by discriminate.
    rewrite lookup_setProp_same.
    rewrite (isLiteralDefinition_boxed_value isIPD isJE value Hlit). reflexivity.
  - unfold def, isActualSelectorDefinition. simpl.
    rewrite lookup_setProp_same. reflexivity.
Qed.

Lemma boxed_and_style_recognizers_overlap_witness :
  isBoxedDefinition isDynamicShape isArray
    (JObject (setProp "technique" (JString "fill")
                (setProp "value" (JNumber 5) (deleteProp "type" []))))
  = true
  /\ isActualSelectorDefinition
       (JObject (setProp "technique" (JString "fill")
                   (setProp "value" (JNumber 5) (deleteProp "type" []))))
     = true.
Proof.
  exact (boxed_and_style_recognizers_overlap isDynamicShape isArray [] "fill"
           (JNumber 5) eq_refl).
Defined.

(** X5: each recognizer reads only its own properties: setting or removing
    a property other than [technique] never changes the answer of
    [isActualSelectorDefinition], and setting or removing a property other
    than [type] and [value] never changes the answer of [isBoxedDefinition]. *)
Theorem recognizers_ignore_other_properties :
  forall (isIPD isJE : JsValue -> bool) (key : string) (x : JsValue)
         (fields : list (string * JsValue)),
    (key <> "technique" ->
     isActualSelectorDefinition (JObject (setProp key x fields))
     = isActualSelectorDefinition (JObject fields)
     /\ isActualSelectorDefinition (JObject (deleteProp key fields))
        = isActualSelectorDefinition (JObject fields))
    /\ (key <> "type" -> key <> "value" ->
        isBoxedDefinition isIPD isJE (JObject (setProp key x fields))
        = isBoxedDefinition isIPD isJE (JObject fields)
        /\ isBoxedDefinition isIPD isJE (JObject (deleteProp key fields))
           = isBoxedDefinition isIPD isJE (JObject fields)).
Proof.
  intros isIPD isJE key x fields. split.
  - intros Hk. unfold isActualSelectorDefinition. simpl.
    rewrite lookup_setProp_other, lookup_deleteProp_other by congruence.
    split; reflexivity.
  - intros Ht Hv. unfold isBoxedDefinition. simpl.
    rewrite !lookup_setProp_other, !lookup_deleteProp_other by congruence.
    split; reflexivity.
Qed.

Lemma recognizers_ignore_other_properties_witness :
  (isActualSelectorDefinition
     (JObject (setProp "description" (JString "roads") [("technique", JString "line")]))
   = isActualSelectorDefinition (JObject [("technique", JString "line")])
   /\ isActualSelectorDefinition
        (JObject (deleteProp "description" [("technique", JString "line")]))
      = isActualSelectorDefinition (JObject [("technique", JString "line")]))
  /\ (isBoxedDefinition isDynamicShape isArray
        (JObject (setProp "description" (JString "roads") [("value", JNumber 5)]))
      = isBoxedDefinition isDynamicShape isArray (JObject [("value", JNumber 5)])
      /\ isBoxedDefinition isDynamicShape isArray
           (JObject (deleteProp "description" [("value", JNumber 5)]))
         = isBoxedDefinition isDynamicShape isArray (JObject [("value", JNumber 5)])).
Proof.
  split.
  - apply (proj1 (recognizers_ignore_other_properties isDynamicShape isArray
                    "description" (JString "roads") [("technique", JString "line")])).
    discriminate.
  - apply (proj2 (recognizers_ignore_other_properties isDynamicShape isArray
                    "description" (JString "roads") [("value", JNumber 5)]));
      discriminate.
Defined.

(** X6: boxing and unboxing literals.  Putting a literal under [value] of an
    object whose [type] is absent or a string always yields a boxed
    definition, with the literal read back from [value]; conversely the
    [value] of a boxed definition that is neither an interpolated property
    definition nor a JSON expression is a literal definition. *)
Theorem literals_box_and_unbox :
  forall (isIPD isJE : JsValue -> bool),
    (forall fields value,
        isLiteralDefinition value = true ->
        (getProp (JObject fields) "type" = JUndefined
         \/ exists ty, getProp (JObject fields) "type" = JString ty) ->
        isBoxedDefinition isIPD isJE (JObject (setProp "value" value fields)) = true
        /\ getProp (JObject (setProp "value" value fields)) "value" = value)
    /\ (forall def,
          isBoxedDefinition isIPD isJE def = true ->
          isIPD (getProp def "value") = false ->
          isJE (getProp def "value") = false ->
          isLiteralDefinition (getProp def "value") = true).
Proof.
  intros isIPD isJE. split.
  - intros fields value Hlit Hty. split.
    + unfold isBoxedDefinition. simpl in *.
      rewrite (lookup_setProp_other "type" "value") by discriminate.
      rewrite lookup_setProp_same.
      rewrite (isLiteralDefinition_boxed_value isIPD isJE value Hlit).
      destruct Hty as [->|[ty ->]]; reflexivity.
    + simpl. rewrite lookup_setProp_same. reflexivity.
  - intros def Hboxed Hipd Hje. unfold isBoxedDefinition in Hboxed.
    apply andb_true_iff in Hboxed. destruct Hboxed as [_ Hval].
    unfold isBoxedValue in Hval. rewrite Hipd, Hje, !orb_false_r in Hval. exact Hval.
Qed.

Lemma literals_box_and_unbox_witness :
  (isBoxedDefinition isDynamicShape isArray
     (JObject (setProp "value" (JString "#f00") [("type", JString "color")])) = true
   /\ getProp (JObject (setProp "value" (JString "#f00") [("type", JString "color")]))
        "value" = JString "#f00")
  /\ isLiteralDefinition (getProp Samples.roadColor "value") = true.
Proof.
  split.
  - apply (proj1 (literals_box_and_unbox isDynamicShape isArray)
                 [("type", JString "color")] (JString "#f00") eq_refl).
    right. exists "color". reflexivity.
  - exact (proj2 (literals_box_and_unbox isDynamicShape isArray)
                 Samples.roadColor eq_refl eq_refl eq_refl).
Defined.

(* ================================================================== *)
(** ** Properties of CameraKeyTrackAnimation *)
(* ================================================================== *)

Section CameraFacts.

Import CameraKeyTrackAnimation.

Context {GeoCoordinates LoopStyle InterpolationMode Callback : Type}.
Variable LoopOnce : LoopStyle.
Variable InterpolateSmooth : InterpolationMode.
Variable projectPoint : GeoCoordinates -> Vector3.
Variable degToRad : Q -> Q.
Variable setFromAxisAngle : Vector3 -> Q -> Quaternion.
Variable multiply : Quaternion -> Quaternion -> Quaternion.
Variable numberToString : Z -> string.
Variable validate : list (@KeyframeTrack InterpolationMode) -> bool.

Notation Animation := (@t GeoCoordinates LoopStyle InterpolationMode Callback).
Notation Events := (list (@Event LoopStyle InterpolationMode Callback)).
Notation Calls := (list (@Call LoopStyle Callback)).
Notation construct :=
  (@new GeoCoordinates LoopStyle InterpolationMode Callback LoopOnce InterpolateSmooth
        projectPoint degToRad setFromAxisAngle multiply numberToString validate).
Notation rotationOf := (pointRotation degToRad setFromAxisAngle multiply).
Notation push := (pushControlPoint projectPoint degToRad setFromAxisAngle multiply).

Lemma fold_pushControlPoint (points : list (@ControlPoint GeoCoordinates)) :
  forall acc,
    fold_left push points acc
    = (fst acc ++ flat_map (fun p => [x (projectPoint (target p));
                                      y (projectPoint (target p));
                                      z (projectPoint (target p))]) points,
       snd acc ++ flat_map (fun p => [qx (rotationOf p); qy (rotationOf p);
                                      qz (rotationOf p); qw (rotationOf p)]) points).
Proof.
  induction points as [|p points IH]; intros [pos rot]; simpl.
  - rewrite !app_nil_r. reflexivity.
  - rewrite IH. simpl. rewrite <- !app_assoc. reflexivity.
Qed.

Lemma flat_map_constant_length {A B : Type} (f : A -> list B) (n : nat) (l : list A) :
  (forall a, List.length (f a) = n) ->
  List.length (flat_map f l) = (n * List.length l)%nat.
Proof.
  intros Hf. induction l as [|a l IH]; simpl; [lia|].
  rewrite length_app, Hf, IH. lia.
Qed.

Lemma perform_keeps_defaults (a : Animation) (c : @Call LoopStyle Callback) :
  loop (m_options a) <> None ->
  repetitions (m_options a) <> None ->
  rotateOnlyClockwise (m_options a) <> None ->
  loop (m_options (fst (perform a c))) <> None
  /\ repetitions (m_options (fst (perform a c))) <> None
  /\ rotateOnlyClockwise (m_options (fst (perform a c))) <> None
  /\ controlPoints (m_options (fst (perform a c))) = controlPoints (m_options a)
  /\ name (m_options (fst (perform a c))) = name (m_options a)
  /\ interpolation (m_options (fst (perform a c))) = interpolation (m_options a).
Proof.
  intros Hl Hr Hc. destruct c; simpl; try (repeat split; solve [assumption | discriminate]).
  unfold start. destruct (m_running a); simpl; repeat split; assumption.
Qed.

Lemma performAll_keeps_defaults (calls : Calls) :
  forall a : Animation,
    loop (m_options a) <> None ->
    repetitions (m_options a) <> None ->
    rotateOnlyClockwise (m_options a) <> None ->
    loop (m_options (fst (performAll a calls))) <> None
    /\ repetitions (m_options (fst (performAll a calls))) <> None
    /\ rotateOnlyClockwise (m_options (fst (performAll a calls))) <> None
    /\ controlPoints (m_options (fst (performAll a calls))) = controlPoints (m_options a)
    /\ name (m_options (fst (performAll a calls))) = name (m_options a)
    /\ interpolation (m_options (fst (performAll a calls))) = interpolation (m_options a).
Proof.
  induction calls as [|c calls IH]; intros a Hl Hr Hc; simpl.
  - repeat split; assumption.
  - destruct (perform_keeps_defaults a c Hl Hr Hc) as (Hl1 & Hr1 & Hc1 & Hp & Hn & Hi).
    destruct (perform a c) as [a1 e1]. simpl in *.
    destruct (IH a1 Hl1 Hr1 Hc1) as (Hl2 & Hr2 & Hc2 & Hp2 & Hn2 & Hi2).
    destruct (performAll a1 calls) as [a2 e2]. simpl in *.
    repeat split; congruence.
Qed.

Lemma lastSetLoop_app (events1 events2 : Events) :
  forall previous,
    lastSetLoop (events1 ++ events2) previous
    = lastSetLoop events2 (lastSetLoop events1 previous).
Proof.
  induction events1 as [|e events1 IH]; intros previous; simpl; [reflexivity|].
  destruct e; apply IH.
Qed.

Lemma perform_keeps_action_in_sync (a : Animation) (c : @Call LoopStyle Callback) :
  lastSetLoop (snd (perform a c))
              (Some (loop (m_options a), repetitions (m_options a)))
  = Some (loop (m_options (fst (perform a c))),
          repetitions (m_options (fst (perform a c)))).
Proof.
  destruct c; simpl; try reflexivity.
  - unfold start. destruct (m_running a); simpl; [|reflexivity].
    destruct (m_onFinished a); reflexivity.
  - destruct (m_onFinished a); reflexivity.
Qed.

Lemma performAll_keeps_action_in_sync (calls : Calls) :
  forall a : Animation,
    lastSetLoop (snd (performAll a calls))
                (Some (loop (m_options a), repetitions (m_options a)))
    = Some (loop (m_options (fst (performAll a calls))),
            repetitions (m_options (fst (performAll a calls)))).
Proof.
  induction calls as [|c calls IH]; intros a; simpl; [reflexivity|].
  pose proof (perform_keeps_action_in_sync a c) as Hc.
  destruct (perform a c) as [a1 e1]. simpl in *.
  specialize (IH a1). destruct (performAll a1 calls) as [a2 e2]. simpl in *.
  rewrite lastSetLoop_app, Hc. exact IH.
Qed.

Lemma count_app (p : @Event LoopStyle InterpolationMode Callback -> bool)
      (events1 events2 : Events) :
  count p (events1 ++ events2) = (count p events1 + count p events2)%nat.
Proof. unfold count. rewrite filter_app, length_app. reflexivity. Qed.

Lemma perform_balance (a : Animation) (c : @Call LoopStyle Callback) :
  stopsOnlyWhenRunning (m_running a) [c] = true ->
  (count isBegin (snd (perform a c)) + bit (m_running a)
   = count isEnd (snd (perform a c)) + bit (m_running (fst (perform a c))))%nat
  /\ (count isAddListener (snd (perform a c)) + bit (m_running a)
      = count isRemoveListener (snd (perform a c))
        + bit (m_running (fst (perform a c))))%nat.
Proof.
  destruct c; simpl; try (intros _; split; reflexivity).
  - intros _. unfold start. destruct (m_running a); simpl; [|split; reflexivity].
    destruct (m_onFinished a); split; reflexivity.
  - rewrite andb_true_r. intros ->. destruct (m_onFinished a); split; reflexivity.
Qed.

Lemma stopsOnlyWhenRunning_step (running : bool) (c : @Call LoopStyle Callback)
      (calls : Calls) (a : Animation) :
  m_running a = running ->
  stopsOnlyWhenRunning running (c :: calls) = true ->
  stopsOnlyWhenRunning running [c] = true
  /\ stopsOnlyWhenRunning (m_running (fst (perform a c))) calls = true.
Proof.
  intros Hrun. destruct c; simpl; try (rewrite Hrun; auto).
  - intros H. split; [reflexivity|]. unfold start.
    destruct (m_running a); exact H.
  - rewrite andb_true_r. intros H. apply andb_true_iff in H. tauto.
Qed.

Lemma performAll_balance (calls : Calls) :
  forall a : Animation,
    stopsOnlyWhenRunning (m_running a) calls = true ->
    (count isBegin (snd (performAll a calls)) + bit (m_running a)
     = count isEnd (snd (performAll a calls))
       + bit (m_running (fst (performAll a calls))))%nat
    /\ (count isAddListener (snd (performAll a calls)) + bit (m_running a)
        = count isRemoveListener (snd (performAll a calls))
          + bit (m_running (fst (performAll a calls))))%nat.
Proof.
  induction calls as [|c calls IH]; intros a Hcalls; simpl; [split; reflexivity|].
  destruct (stopsOnlyWhenRunning_step (m_running a) c calls a eq_refl Hcalls) as [Hc Hrest].
  destruct (perform_balance a c Hc) as [Hb Hl].
  destruct (perform a c) as [a1 e1]. simpl in *.
  destruct (IH a1 Hrest) as [Hb2 Hl2].
  destruct (performAll a1 calls) as [a2 e2]. simpl in *.
  rewrite !count_app. split; lia.
Qed.

Lemma stops_fire_callback_again (n : nat) :
  forall (a : Animation) (cb : Callback),
    m_onFinished a = Some cb ->
    count isOnFinished (snd (performAll a (repeat CallStop n))) = n
    /\ count isEnd (snd (performAll a (repeat CallStop n))) = n
    /\ count isBegin (snd (performAll a (repeat CallStop n))) = 0%nat
    /\ Forall (fun e => isOnFinished e = true -> e = OnFinished cb)
              (snd (performAll a (repeat CallStop n)))
    /\ m_onFinished (fst (performAll a (repeat CallStop n))) = Some cb.
Proof.
  induction n as [|n IH]; intros a cb Hcb; simpl.
  - repeat split; auto.
  - destruct (IH {| m_options := m_options a; m_running := false;
                    m_onFinished := m_onFinished a; m_name := m_name a;
                    m_lastFrameTime := m_lastFrameTime a |} cb Hcb)
      as (H1 & H2 & H3 & H4 & H5).
    destruct (performAll _ (repeat CallStop n)) as [a2 e2]. simpl in *.
    rewrite Hcb. split; [|split; [|split; [|split]]].
    + unfold count in *. simpl. congruence.
    + unfold count in *. simpl. congruence.
    + unfold count in *. simpl. congruence.
    + repeat (constructor; [simpl; first [discriminate | reflexivity]|]). exact H4.
    + exact H5.
Qed.

Lemma stops_leave_idle (n : nat) :
  forall a : Animation,
    m_running a = false ->
    m_running (fst (performAll a (repeat CallStop n))) = false.
Proof.
  induction n as [|n IH]; intros a Hidle; simpl; [exact Hidle|].
  specialize (IH (fst (stop a)) eq_refl). simpl in IH.
  destruct (performAll _ (repeat CallStop n)) as [a2 e2]. exact IH.
Qed.

Lemma callbacks_come_from_start (calls : Calls) :
  forall (a : Animation) (cb : Callback),
    In (OnFinished cb) (snd (performAll a calls)) ->
    m_onFinished a = Some cb
    \/ exists time now, In (CallStart time (Some cb) now) calls.
Proof.
  induction calls as [|c calls IH]; intros a cb Hin; simpl in Hin; [destruct Hin|].
  assert (Hhere : In (OnFinished cb) (snd (perform a c)) -> m_onFinished a = Some cb).
  { destruct c; simpl; try solve [intuition discriminate].
    - unfold start. destruct (m_running a); simpl.
      + destruct (m_onFinished a); simpl; intuition congruence.
      + intuition congruence.
    - destruct (m_onFinished a); simpl; intuition congruence. }
  assert (Hnext : m_onFinished (fst (perform a c)) = Some cb ->
                  m_onFinished a = Some cb
                  \/ exists time now, In (CallStart time (Some cb) now) (c :: calls)).
  { destruct c; simpl; auto.
    unfold start. destruct (m_running a); simpl; intros ->; right;
      exists time, now; left; reflexivity. }
  destruct (perform a c) as [a1 e1]. simpl in *.
  specialize (IH a1 cb). destruct (performAll a1 calls) as [a2 e2]. simpl in *.
  apply in_app_or in Hin. destruct Hin as [Hin|Hin]; [auto|].
  destruct (IH Hin) as [H|(time & now & H)]; [auto|].
  right. exists time, now. right. exact H.
Qed.

(** X7: for a non-empty list of control points the constructor succeeds,
    and the three keyframe tracks it hands to the animation clip are
    size-consistent: all three share the timestamps of the control points,
    the position track holds three values per control point (the projected
    target), the rotation track four (the heading-times-tilt quaternion), the
    distance track one, in control-point order.  For an empty list it throws
    at the first track, before any clip, mixer or action exists, with the
    defaults already written into the options object. *)
Theorem key_tracks_layout :
  forall (options : @Options GeoCoordinates LoopStyle InterpolationMode) (now : Z),
    let points := controlPoints options in
    let mode := nullish (interpolation options) InterpolateSmooth in
    let tracks :=
      keyTracks projectPoint degToRad setFromAxisAngle multiply mode points in
    (points <> [] ->
     (exists (constructed : Animation) (rest : Events),
         construct options now
         = Ok (constructed,
               NewAnimationClip "cameraflyoveranimation" (-1) tracks :: rest))
     /\ map trackName tracks = [".position"; ".quaternion"; ".distance"]
     /\ Forall2 (fun size track =>
                   times track = map timestamp points
                   /\ times track <> []
                   /\ List.length (values track)
                      = (size * List.length (times track))%nat)
                [3; 4; 1]%nat tracks
     /\ map values tracks
        = [ flat_map (fun p => [x (projectPoint (target p));
                                y (projectPoint (target p));
                                z (projectPoint (target p))]) points;
            flat_map (fun p => [qx (rotationOf p); qy (rotationOf p);
                                qz (rotationOf p); qw (rotationOf p)]) points;
            map distance points ])
    /\ (points = [] ->
        exists written,
          construct options now = Err (NoKeyframes ".position" written)
          /\ loop written = Some (nullish (loop options) LoopOnce)
          /\ repetitions written = Some (nullish (repetitions options) 1)
          /\ rotateOnlyClockwise written
             = Some (nullish (rotateOnlyClockwise options) true)).
Proof.
  intros options now points mode tracks. split.
  - intros Hpoints. split; [|split; [|split]].
    + unfold new. cbn [controlPoints]. fold points.
      destruct points as [|p rest] eqn:E; [contradiction|].
      unfold tracks, mode, nullish.
      destruct (interpolation options); eexists; eexists; reflexivity.
    + reflexivity.
    + unfold tracks, keyTracks. rewrite fold_pushControlPoint.
      assert (Htimes : map timestamp points <> []).
      { destruct points; [contradiction | discriminate]. }
      constructor; [|constructor; [|constructor; [|constructor]]];
        (split; [reflexivity|]); (split; [exact Htimes|]);
        cbn [times values fst snd app]; rewrite length_map.
      * apply (flat_map_constant_length _ 3%nat). reflexivity.
      * apply (flat_map_constant_length _ 4%nat). reflexivity.
      * rewrite length_map. lia.
    + unfold tracks, keyTracks. rewrite fold_pushControlPoint. reflexivity.
  - intros Hpoints. unfold new. cbn [controlPoints]. fold points. rewrite Hpoints.
    eexists. split; [reflexivity|]. repeat split.
Qed.

Lemma construct_ok (options : @Options GeoCoordinates LoopStyle InterpolationMode)
      (now : Z) (constructed : Animation) (events : Events) :
  construct options now = Ok (constructed, events) ->
  m_running constructed = false
  /\ m_onFinished constructed = None
  /\ m_options constructed
     = {| controlPoints := controlPoints options;
          name := name options;
          interpolation := interpolation options;
          loop := Some (nullish (loop options) LoopOnce);
          repetitions := Some (nullish (repetitions options) 1);
          rotateOnlyClockwise := Some (nullish (rotateOnlyClockwise options) true) |}
  /\ lastSetLoop events None
     = Some (loop (m_options constructed), repetitions (m_options constructed)).
Proof.
  unfold new. cbn [controlPoints]. destruct (controlPoints options); [discriminate|].
  intros [= <- <-]. repeat split.
  cbn [m_options loop repetitions app lastSetLoop].
  destruct (validate _); reflexivity.
Qed.

(** X8: after a successful construction and after any sequence of setter,
    [start] and [stop] calls, the options object always has [loop],
    [repetitions] and [rotateOnlyClockwise] defined, and its control points,
    name and interpolation are those the caller passed; the constructor
    keeps the values the caller gave and fills in [LoopOnce], [1] and [true]
    for the absent ones. *)
Theorem animation_options_always_defined :
  forall (options : @Options GeoCoordinates LoopStyle InterpolationMode) (now : Z)
         (constructed : Animation) (events : Events) (calls : Calls),
    construct options now = Ok (constructed, events) ->
    let final := fst (performAll constructed calls) in
    (loop (m_options final) <> None
     /\ repetitions (m_options final) <> None
     /\ rotateOnlyClockwise (m_options final) <> None
     /\ controlPoints (m_options final) = controlPoints options
     /\ name (m_options final) = name options
     /\ interpolation (m_options final) = interpolation options)
    /\ loop (m_options constructed) = Some (nullish (loop options) LoopOnce)
    /\ repetitions (m_options constructed) = Some (nullish (repetitions options) 1)
    /\ rotateOnlyClockwise (m_options constructed)
       = Some (nullish (rotateOnlyClockwise options) true).
Proof.
  intros options now constructed events calls Hnew final.
  destruct (construct_ok options now constructed events Hnew) as (_ & _ & Hopt & _).
  split; [|rewrite Hopt; repeat split].
  destruct (performAll_keeps_defaults calls constructed)
    as (H1 & H2 & H3 & H4 & H5 & H6); try (rewrite Hopt; discriminate).
  unfold final. rewrite H4, H5, H6, Hopt. repeat split; assumption.
Qed.

(** X9: the animation action is kept in sync with the options: over a
    successful construction and any sequence of calls, the arguments of the
    last [setLoop] call made on the action are the current [loop] and
    [repetitions] of the options. *)
Theorem action_loop_settings_in_sync :
  forall (options : @Options GeoCoordinates LoopStyle InterpolationMode) (now : Z)
         (constructed : Animation) (events : Events) (calls : Calls),
    construct options now = Ok (constructed, events) ->
    let run := performAll constructed calls in
    lastSetLoop (events ++ snd run) None
    = Some (loop (m_options (fst run)), repetitions (m_options (fst run))).
Proof.
  intros options now constructed events calls Hnew run. rewrite lastSetLoop_app.
  destruct (construct_ok options now constructed events Hnew) as (_ & _ & _ & ->).
  apply performAll_keeps_action_in_sync.
Qed.

(** X10: when [stop()] is only called on a running animation, the calls on
    the map view are balanced: over any sequence of calls on a newly
    constructed animation, [beginAnimation] was called as often as
    [endAnimation], plus once if the animation is running at the end;
    likewise for adding and removing the render listener. *)
Theorem map_view_calls_are_balanced :
  forall (options : @Options GeoCoordinates LoopStyle InterpolationMode) (now : Z)
         (constructed : Animation) (events : Events) (calls : Calls),
    construct options now = Ok (constructed, events) ->
    stopsOnlyWhenRunning false calls = true ->
    let run := performAll constructed calls in
    count isBegin (snd run)
    = (count isEnd (snd run) + bit (isRunning (fst run)))%nat
    /\ count isAddListener (snd run)
       = (count isRemoveListener (snd run) + bit (isRunning (fst run)))%nat.
Proof.
  intros options now constructed events calls Hnew Hcalls run.
  destruct (construct_ok options now constructed events Hnew) as (Hidle & _).
  rewrite <- Hidle in Hcalls.
  destruct (performAll_balance calls constructed Hcalls) as [Hb Hl].
  rewrite Hidle in Hb, Hl. simpl in Hb, Hl. rewrite Nat.add_0_r in Hb, Hl.
  split; assumption.
Qed.

(** X11: [stop()] neither checks that the animation runs nor forgets the
    callback: after [start(_, cb)], each of [n] consecutive [stop()] calls
    calls [endAnimation] on the map view and invokes [cb] again, without any
    [beginAnimation]. *)
Theorem every_stop_fires_the_callback :
  forall (a : Animation) (time : option Q) (cb : Callback) (now : Z) (n : nat),
    let started := fst (start a time (Some cb) now) in
    let run := performAll started (repeat CallStop n) in
    count isOnFinished (snd run) = n
    /\ count isEnd (snd run) = n
    /\ count isBegin (snd run) = 0%nat
    /\ Forall (fun e => isOnFinished e = true -> e = OnFinished cb) (snd run)
    /\ m_onFinished (fst run) = Some cb
    /\ (n <> 0%nat -> isRunning (fst run) = false).
Proof.
  intros a time cb now n started run.
  assert (Hcb : m_onFinished started = Some cb).
  { unfold started, start. destruct (m_running a); reflexivity. }
  destruct (stops_fire_callback_again n started cb Hcb) as (H1 & H2 & H3 & H4 & H5).
  repeat split; try assumption.
  intros Hn. unfold run, isRunning. destruct n as [|n]; [contradiction|]. simpl.
  pose proof (stops_leave_idle n (fst (stop started)) eq_refl) as Hidle. simpl in Hidle.
  destruct (performAll _ (repeat CallStop n)) as [a2 e2]. exact Hidle.
Qed.

(** X12: the animation only ever invokes a closure it was given: over any
    sequence of calls on a newly constructed animation, every [onFinished]
    invocation carries a callback that some [start] call of the sequence
    passed in. *)
Theorem invoked_callbacks_were_passed_to_start :
  forall (options : @Options GeoCoordinates LoopStyle InterpolationMode) (now : Z)
         (constructed : Animation) (events : Events) (calls : Calls) (cb : Callback),
    construct options now = Ok (constructed, events) ->
    In (OnFinished cb) (snd (performAll constructed calls)) ->
    exists time now', In (CallStart time (Some cb) now') calls.
Proof.
  intros options now constructed events calls cb Hnew Hin.
  destruct (construct_ok options now constructed events Hnew) as (_ & Hnone & _).
  destruct (callbacks_come_from_start calls constructed cb Hin) as [H|H];
    [congruence | exact H].
Qed.

End CameraFacts.

(** X7 on the flight over two control points, and on a flight without
    control points. *)
Lemma key_tracks_layout_witness :
  (exists constructed rest,
      CameraSamples.newFlight CameraSamples.flight 0
      = Ok (constructed,
            CameraKeyTrackAnimation.NewAnimationClip "cameraflyoveranimation" (-1)
              (CameraKeyTrackAnimation.keyTracks CameraSamples.flatProjection
                 (fun degrees => degrees) CameraSamples.axisAngle CameraSamples.composed
                 2302%nat [CameraSamples.berlin; CameraSamples.paris])
            :: rest))
  /\ (exists written,
        CameraSamples.newFlight CameraSamples.emptyFlight 0
        = Err (CameraKeyTrackAnimation.NoKeyframes ".position" written)
        /\ CameraKeyTrackAnimation.loop written = Some 2200%nat
        /\ CameraKeyTrackAnimation.repetitions written = Some 1
        /\ CameraKeyTrackAnimation.rotateOnlyClockwise written = Some true).
Proof.
  split.
  - assert (Hpoints : CameraKeyTrackAnimation.controlPoints CameraSamples.flight <> [])
      by discriminate.
    exact (proj1 (proj1 (@key_tracks_layout (Q * Q) nat nat string 2200%nat 2302%nat
                           CameraSamples.flatProjection (fun degrees => degrees)
                           CameraSamples.axisAngle CameraSamples.composed
                           (fun _ => "1600000000000") (fun _ => true)
                           CameraSamples.flight 0%Z) Hpoints)).
  - exact (proj2 (@key_tracks_layout (Q * Q) nat nat string 2200%nat 2302%nat
                    CameraSamples.flatProjection (fun degrees => degrees)
                    CameraSamples.axisAngle CameraSamples.composed
                    (fun _ => "1600000000000") (fun _ => true)
                    CameraSamples.emptyFlight 0%Z) eq_refl).
Defined.

(** X8 on the flight, after [start(undefined, done); start(); repetitions = 2; stop()]. *)
Lemma animation_options_always_defined_witness :
  let constructed := fst CameraSamples.constructedFlight in
  let final :=
    fst (CameraKeyTrackAnimation.performAll constructed CameraSamples.session) in
  (CameraKeyTrackAnimation.loop (CameraKeyTrackAnimation.m_options final) <> None
   /\ CameraKeyTrackAnimation.repetitions (CameraKeyTrackAnimation.m_options final)
      <> None
   /\ CameraKeyTrackAnimation.rotateOnlyClockwise
        (CameraKeyTrackAnimation.m_options final) <> None
   /\ CameraKeyTrackAnimation.controlPoints (CameraKeyTrackAnimation.m_options final)
      = [CameraSamples.berlin; CameraSamples.paris]
   /\ CameraKeyTrackAnimation.name (CameraKeyTrackAnimation.m_options final) = None
   /\ CameraKeyTrackAnimation.interpolation (CameraKeyTrackAnimation.m_options final)
      = None)
  /\ CameraKeyTrackAnimation.loop (CameraKeyTrackAnimation.m_options constructed)
     = Some 2200%nat
  /\ CameraKeyTrackAnimation.repetitions (CameraKeyTrackAnimation.m_options constructed)
     = Some 3
  /\ CameraKeyTrackAnimation.rotateOnlyClockwise
       (CameraKeyTrackAnimation.m_options constructed) = Some true.
Proof.
  exact (@animation_options_always_defined (Q * Q) nat nat string 2200%nat 2302%nat
           CameraSamples.flatProjection (fun degrees => degrees)
           CameraSamples.axisAngle CameraSamples.composed
           (fun _ => "1600000000000") (fun _ => true)
           CameraSamples.flight 0%Z (fst CameraSamples.constructedFlight)
           (snd CameraSamples.constructedFlight) CameraSamples.session eq_refl).
Defined.

(** X9 on the same session: the last [setLoop] carries [LoopOnce] and the
    repetitions set by the setter. *)
Lemma action_loop_settings_in_sync_witness :
  let run := CameraKeyTrackAnimation.performAll (fst CameraSamples.constructedFlight)
               CameraSamples.session in
  CameraKeyTrackAnimation.lastSetLoop
    (snd CameraSamples.constructedFlight ++ snd run) None
  = Some (CameraKeyTrackAnimation.loop (CameraKeyTrackAnimation.m_options (fst run)),
          CameraKeyTrackAnimation.repetitions
            (CameraKeyTrackAnimation.m_options (fst run))).
Proof.
  exact (@action_loop_settings_in_sync (Q * Q) nat nat string 2200%nat 2302%nat
           CameraSamples.flatProjection (fun degrees => degrees)
           CameraSamples.axisAngle CameraSamples.composed
           (fun _ => "1600000000000") (fun _ => true)
           CameraSamples.flight 0%Z (fst CameraSamples.constructedFlight)
           (snd CameraSamples.constructedFlight) CameraSamples.session eq_refl).
Defined.

(** X10 on [start(undefined, done); start(); repetitions = 2; stop()]. *)
Lemma map_view_calls_are_balanced_witness :
  let run := CameraKeyTrackAnimation.performAll
               (fst CameraSamples.constructedFlight) CameraSamples.session in
  CameraKeyTrackAnimation.count CameraKeyTrackAnimation.isBegin (snd run)
  = (CameraKeyTrackAnimation.count CameraKeyTrackAnimation.isEnd (snd run)
     + CameraKeyTrackAnimation.bit (CameraKeyTrackAnimation.isRunning (fst run)))%nat
  /\ CameraKeyTrackAnimation.count CameraKeyTrackAnimation.isAddListener (snd run)
     = (CameraKeyTrackAnimation.count CameraKeyTrackAnimation.isRemoveListener (snd run)
        + CameraKeyTrackAnimation.bit (CameraKeyTrackAnimation.isRunning (fst run)))%nat.
Proof.
  exact (@map_view_calls_are_balanced (Q * Q) nat nat string 2200%nat 2302%nat
           CameraSamples.flatProjection (fun degrees => degrees)
           CameraSamples.axisAngle CameraSamples.composed
           (fun _ => "1600000000000") (fun _ => true)
           CameraSamples.flight 0%Z (fst CameraSamples.constructedFlight)
           (snd CameraSamples.constructedFlight) CameraSamples.session
           eq_refl eq_refl).
Defined.

(** X12 on the same session: the callback invoked is the one of the first
    [start]. *)
Lemma invoked_callbacks_were_passed_to_start_witness :
  exists time now,
    In (CameraKeyTrackAnimation.CallStart time (Some "done") now) CameraSamples.session.
Proof.
  apply (@invoked_callbacks_were_passed_to_start (Q * Q) nat nat string 2200%nat 2302%nat
           CameraSamples.flatProjection (fun degrees => degrees)
           CameraSamples.axisAngle CameraSamples.composed
           (fun _ => "1600000000000") (fun _ => true)
           CameraSamples.flight 0%Z (fst CameraSamples.constructedFlight)
           (snd CameraSamples.constructedFlight) CameraSamples.session "done" eq_refl).
  simpl. repeat (first [left; reflexivity | right]).
Defined.
